(** * The VSA question-answering pipeline ([_vsa_validator.py])

    A shallow embedding of the document loader, the build-or-load routine of
    the vector index, the four nodes of the retrieval/grading/search/generation
    graph and the graph itself, followed by the properties of the step trace,
    the search flag and the document list.

    The embedding keeps the program's own split between what it computes and
    what it delegates.  Everything delegated (the file system, the FAISS
    library, the loaders, the retriever, the grading model, the search tool and
    the answering chain) is an operation on an abstract world that may return a
    value or raise; the program's own control flow is written in a small
    state-and-exception monad over that world. *)

From Stdlib Require Import String List Bool Arith Lia.
Import ListNotations.
Open Scope string_scope.

(** ** Python values *)

(** Exceptions.  [ValueError] is the one the program raises itself; every
    exception coming out of a library call is a [LibraryError] with the name of
    its class.  Both are instances of Python's [Exception], so an
    [except Exception] clause handles either. *)
Inductive Exception : Type :=
| ValueError (msg : string)
| LibraryError (cls msg : string).

(** [str(e)], as used by the f-strings of the [except] clauses. *)
Definition str (e : Exception) : string :=
  match e with
  | ValueError msg => msg
  | LibraryError _ msg => msg
  end.

(** [langchain.schema.Document]: text and a metadata dictionary. *)
Record Document : Type := mkDocument {
  page_content : string;
  metadata : list (string * string)
}.

(** [s.startswith(p)] and [s.endswith(p)]. *)
Definition startswith (s p : string) : bool := String.prefix p s.

Definition endswith (s p : string) : bool :=
  Nat.leb (String.length p) (String.length s) &&
  (substring (String.length s - String.length p) (String.length p) s =? p).

(** [os.path.join(a, b)] of [posixpath]: an absolute [b] replaces [a]; a
    separator is inserted unless [a] is empty or already ends with one. *)
Definition os_path_join (a b : string) : string :=
  if startswith b "/" then b
  else if (a =? "") || endswith a "/" then a ++ b
  else a ++ "/" ++ b.

(** ** The monad of the embedding *)

Definition Outcome (A : Type) : Type := (Exception + A)%type.

(** A computation over a state [S] that returns or raises. *)
Definition M (S A : Type) : Type := S -> Outcome A * S.

Definition ret {S A : Type} (a : A) : M S A := fun s => (inr a, s).

Definition raise {S A : Type} (e : Exception) : M S A := fun s => (inl e, s).

Definition bind {S A B : Type} (c : M S A) (k : A -> M S B) : M S B :=
  fun s =>
    match c s with
    | (inr a, s') => k a s'
    | (inl e, s') => (inl e, s')
    end.

(** [try: body except Exception as e: handler]. *)
Definition try_except {S A : Type} (body : M S A) (handler : Exception -> M S A)
  : M S A :=
  fun s =>
    match body s with
    | (inr a, s') => (inr a, s')
    | (inl e, s') => handler e s'
    end.

Declare Scope monad_scope.
Delimit Scope monad_scope with monad.
Notation "x <- c ;; k" := (bind c (fun x => k))
  (at level 61, c at next level, right associativity) : monad_scope.
Notation "c ;; k" := (bind c (fun _ => k))
  (at level 61, right associativity) : monad_scope.
Open Scope monad_scope.

(** ** Loading the sources and building or loading the index *)

Module VectorStore.

(** The library calls of [load_documents] and [create_or_load_vectorstore],
    recorded in the order they are made. *)
Inductive Call : Type :=
| CallLoadLocal (path : string)
| CallWebLoad (source : string)
| CallPdfLoad (source : string)
| CallSplitDocuments
| CallFromDocuments
| CallMakedirs (dir : string)
| CallSaveLocal (path : string).

(** The two loaders a source can be given to. *)
Inductive Loader : Type :=
| WebBaseLoader (source : string)
| PyPDFLoader (source : string).

Section Embedding.

(** [W] is the world outside the process; [Index] is the type of a FAISS
    vector store. *)
Context {W Index : Type}.

(** What the process asks of the operating system and of the libraries. *)
Record Platform : Type := {
  os_getcwd : W -> string;
  os_path_exists : string -> W -> bool;
  FAISS_load_local : string -> M W Index;
  web_loader_load : string -> M W (list Document);
  pdf_loader_load : string -> M W (list Document);
  split_documents : list Document -> M W (list Document);
  FAISS_from_documents : list Document -> M W Index;
  os_makedirs : string -> M W unit;
  save_local : Index -> string -> M W unit
}.

(** The process: the world, what it has printed, and the library calls it has
    made so far. *)
Record Proc : Type := mkProc {
  world : W;
  stdout : list string;
  calls : list Call
}.

Context (P : Platform).

(** The process after it has printed [line]. *)
Definition printed (line : string) (p : Proc) : Proc :=
  mkProc (world p) (stdout p ++ [line]) (calls p).

Definition print (line : string) : M Proc unit :=
  fun p => (inr tt, printed line p).

(** A library call: it is recorded, then run on the world. *)
Definition invoke {A : Type} (c : Call) (f : M W A) : M Proc A :=
  fun p =>
    let (r, w') := f (world p) in
    (r, mkProc w' (stdout p) (calls p ++ [c])).

(** A read of the world that cannot fail. *)
Definition observe {A : Type} (f : W -> A) : M Proc A :=
  fun p => (inr (f (world p)), p).

(** The [if]/[elif]/[else] of [load_documents]. *)
Definition select_loader (source : string) : Outcome Loader :=
  if startswith source "http" then inr (WebBaseLoader source)
  else if endswith source ".pdf" then inr (PyPDFLoader source)
  else inl (ValueError ("Unsupported source type: " ++ source)).

Definition loader_load (l : Loader) : M Proc (list Document) :=
  match l with
  | WebBaseLoader source => invoke (CallWebLoad source) (web_loader_load P source)
  | PyPDFLoader source => invoke (CallPdfLoad source) (pdf_loader_load P source)
  end.

(** The [for] loop of [load_documents], with [docs] as its accumulator. *)
Fixpoint load_documents_loop (sources : list string) (docs : list Document)
  : M Proc (list Document) :=
  match sources with
  | [] => ret docs
  | source :: rest =>
      match select_loader source with
      | inl e => raise e
      | inr loader =>
          loaded <- loader_load loader ;;
          load_documents_loop rest (docs ++ loaded)
      end
  end.

Definition load_documents (sources : list string) : M Proc (list Document) :=
  load_documents_loop sources [].

(** The first half of [create_or_load_vectorstore]: [Some] index when the
    function returns from inside the [try], [None] when it goes on to build. *)
Definition load_existing (index_path : string) : M Proc (option Index) :=
  found <- observe (os_path_exists P (index_path ++ "/index.faiss")) ;;
  if (found : bool) then
    print ("Loading existing vector store from " ++ index_path ++ "/index.faiss") ;;
    try_except
      (vectorstore <- invoke (CallLoadLocal index_path) (FAISS_load_local P index_path) ;;
       print "Vector store loaded successfully." ;;
       ret (Some vectorstore))
      (fun e =>
         print ("Error loading vector store: " ++ str e) ;;
         print "Will create a new vector store." ;;
         ret None)
  else
    print ("Vector store not found at " ++ index_path ++ "/index.faiss") ;;
    ret None.

(** The [try] around the two calls that persist the index. *)
Definition save_index (vectorstore : Index) (index_dir index_path : string)
  : M Proc unit :=
  try_except
    (invoke (CallMakedirs index_dir) (os_makedirs P index_dir) ;;
     invoke (CallSaveLocal index_path) (save_local P vectorstore index_path) ;;
     print "Vector store saved successfully.")
    (fun e => print ("Error saving vector store: " ++ str e)).

(** The second half: load, split, embed, save. *)
Definition create_new (sources : list string) (index_dir index_path : string)
  : M Proc Index :=
  print "Creating new vector store..." ;;
  docs <- load_documents sources ;;
  doc_splits <- invoke CallSplitDocuments (split_documents P docs) ;;
  vectorstore <- invoke CallFromDocuments (FAISS_from_documents P doc_splits) ;;
  print ("Saving vector store to " ++ index_path ++ "...") ;;
  save_index vectorstore index_dir index_path ;;
  ret vectorstore.

Definition create_or_load_vectorstore (sources : list string) (index_name : string)
  : M Proc Index :=
  current_dir <- observe (os_getcwd P) ;;
  let index_dir := os_path_join current_dir index_name in
  let index_path := os_path_join index_dir "index" in
  print ("Checking for index at: " ++ index_path ++ "/index.faiss") ;;
  existing <- load_existing index_path ;;
  match existing with
  | Some vectorstore => ret vectorstore
  | None => create_new sources index_dir index_path
  end.

End Embedding.

Arguments Platform : clear implicits.
Arguments Proc : clear implicits.

(** The default of the [index_name] parameter and the module-level source list. *)
Definition default_index_name : string := "index_vsa".
Definition sources : list string := ["./index_vsa/vsa.pdf"].

(** *** The words of the specification *)

(** The two supported kinds of source: a web page or a PDF. *)
Definition supported (source : string) : bool :=
  startswith source "http" || endswith source ".pdf".

(** How many times an index has been built from documents. *)
Definition is_build (c : Call) : bool :=
  match c with
  | CallFromDocuments => true
  | _ => false
  end.

Definition index_builds (cs : list Call) : nat := List.length (filter is_build cs).

(** The loader call a supported source gives rise to. *)
Definition loader_call (source : string) : Call :=
  if startswith source "http" then CallWebLoad source else CallPdfLoad source.

End VectorStore.

(** ** The graph of the four nodes *)

Module Graph.

(** [GradeDocuments]: the structured output of the grading model. *)
Record GradeDocuments : Type := mkGrade {
  binary_score : string
}.

(** One result of the search tool: a dictionary read at ["url"] and
    ["content"]. *)
Record SearchResult : Type := mkResult {
  url : string;
  content : string
}.

(** [GraphState], with the five keys [run_streamlit] passes in and the nodes
    read and write (the sixth declared key, [answer], is never given a value). *)
Record GraphState : Type := mkState {
  question : string;
  generation : string;
  search : string;
  documents : list Document;
  steps : list string
}.

(** The dictionary a node returns: the keys it holds are written to the state,
    the others keep their value. *)
Record Update : Type := mkUpdate {
  u_documents : option (list Document);
  u_question : option string;
  u_generation : option string;
  u_search : option string;
  u_steps : option (list string)
}.

Definition write {A : Type} (new : option A) (old : A) : A :=
  match new with
  | Some v => v
  | None => old
  end.

Definition apply_update (state : GraphState) (u : Update) : GraphState :=
  mkState (write (u_question u) (question state))
          (write (u_generation u) (generation state))
          (write (u_search u) (search state))
          (write (u_documents u) (documents state))
          (write (u_steps u) (steps state)).

(** Truth value of a list in an [if]. *)
Definition truthy {A : Type} (l : list A) : bool :=
  match l with
  | [] => false
  | _ :: _ => true
  end.

(** The document [web_search] makes of one search result. *)
Definition result_document (d : SearchResult) : Document :=
  mkDocument (content d) [("url", url d)].

(** [decide_to_generate]: the key of the branch to take. *)
Definition decide_to_generate (state : GraphState) : string :=
  if search state =? "Yes" then "search" else "generate".

(** The names [START] and [END] of the graph library. *)
Definition START : string := "__start__".
Definition END : string := "__end__".

(** The default bound of the graph library on the number of node runs. *)
Definition recursion_limit : nat := 25.

Fixpoint lookup {A : Type} (key : string) (l : list (string * A)) : option A :=
  match l with
  | [] => None
  | (k, v) :: rest => if k =? key then Some v else lookup key rest
  end.

Section Embedding.

Context {W : Type}.

(** The four services the nodes call. *)
Record Services : Type := {
  retriever_invoke : string -> M W (list Document);
  retrieval_grader_invoke : string -> string -> M W GradeDocuments;
  web_search_tool_invoke : string -> M W (list SearchResult);
  rag_chain_invoke : list Document -> string -> M W string
}.

Context (svc : Services).

Definition retrieve (state : GraphState) : M W Update :=
  let question := question state in
  documents <- retriever_invoke svc question ;;
  let steps := if truthy (steps state) then steps state else [] in
  let steps := (steps ++ ["retrieve_documents"])%list in
  ret (mkUpdate (Some documents) (Some question) None None (Some steps)).

Definition generate (state : GraphState) : M W Update :=
  let question := question state in
  let documents := documents state in
  generation <- rag_chain_invoke svc documents question ;;
  let steps := (steps state ++ ["generate_answer"])%list in
  ret (mkUpdate (Some documents) (Some question) (Some generation) None (Some steps)).

(** The [for] loop of [grade_documents], with [filtered_docs] and [search]
    as they stand before the chunks still to grade. *)
Fixpoint grade_loop (question : string) (documents filtered_docs : list Document)
  (search : string) : M W (list Document * string) :=
  match documents with
  | [] => ret (filtered_docs, search)
  | d :: rest =>
      score <- retrieval_grader_invoke svc question (page_content d) ;;
      let grade := binary_score score in
      if grade =? "yes"
      then grade_loop question rest (filtered_docs ++ [d])%list search
      else grade_loop question rest filtered_docs "Yes"
  end.

Definition grade_documents (state : GraphState) : M W Update :=
  let question := question state in
  let documents := documents state in
  let steps := (steps state ++ ["grade_document_retrieval"])%list in
  graded <- grade_loop question documents [] "No" ;;
  let (filtered_docs, search) := (graded : list Document * string) in
  ret (mkUpdate (Some filtered_docs) (Some question) None (Some search) (Some steps)).

Definition web_search (state : GraphState) : M W Update :=
  let question := question state in
  let documents := documents state in
  let steps := (steps state ++ ["web_search"])%list in
  web_results <- web_search_tool_invoke svc question ;;
  let documents := (documents ++ map result_document web_results)%list in
  ret (mkUpdate (Some documents) (Some question) None None (Some steps)).

(** A [StateGraph] under construction: nodes, edges, and conditional edges
    (source, path function, mapping from the function's keys to nodes). *)
Record StateGraph : Type := mkGraph {
  nodes : list (string * (GraphState -> M W Update));
  edges : list (string * string);
  branches : list (string * ((GraphState -> string) * list (string * string)))
}.

Definition new_graph : StateGraph := mkGraph [] [] [].

Definition add_node (name : string) (action : GraphState -> M W Update)
  (g : StateGraph) : StateGraph :=
  mkGraph (nodes g ++ [(name, action)]) (edges g) (branches g).

Definition add_edge (source target : string) (g : StateGraph) : StateGraph :=
  mkGraph (nodes g) (edges g ++ [(source, target)]) (branches g).

(** [set_entry_point(key)] is [add_edge(START, key)]. *)
Definition set_entry_point (key : string) (g : StateGraph) : StateGraph :=
  add_edge START key g.

Definition add_conditional_edges (source : string) (path : GraphState -> string)
  (path_map : list (string * string)) (g : StateGraph) : StateGraph :=
  mkGraph (nodes g) (edges g) (branches g ++ [(source, (path, path_map))]).

Definition workflow : StateGraph :=
  let g := new_graph in
  let g := add_node "retrieve" retrieve g in
  let g := add_node "grade_documents" grade_documents g in
  let g := add_node "generate" generate g in
  let g := add_node "web_search" web_search g in
  let g := set_entry_point "retrieve" g in
  let g := add_edge "retrieve" "grade_documents" g in
  let g := add_conditional_edges "grade_documents" decide_to_generate
             [("search", "web_search"); ("generate", "generate")] g in
  let g := add_edge "web_search" "generate" g in
  let g := add_edge "generate" END g in
  g.

(** Where the run goes after [node] has left the state [state]: the targets
    of its plain edges, then what its conditional edges select. *)
Definition successors (g : StateGraph) (node : string) (state : GraphState)
  : list string :=
  (map snd (filter (fun e => fst e =? node) (edges g)) ++
   flat_map
     (fun b =>
        if fst b =? node then
          match lookup (fst (snd b) state) (snd (snd b)) with
          | Some target => [target]
          | None => []
          end
        else [])
     (branches g))%list.

(** The compiled graph, run from [node].  A node's update is merged into the
    state and the run moves to the node's successor; it ends at [END].  Every
    node of [workflow] has exactly one successor; a graph where a node has
    none or several is not run by this embedding. *)
Fixpoint run (g : StateGraph) (limit : nat) (node : string) (state : GraphState)
  : M W GraphState :=
  if node =? END then ret state
  else
    match limit with
    | 0 => raise (LibraryError "GraphRecursionError" "Recursion limit reached")
    | S limit' =>
        match lookup node (nodes g) with
        | None => raise (LibraryError "ValueError" ("Unknown node: " ++ node))
        | Some action =>
            update <- action state ;;
            let state' := apply_update state update in
            match successors g node state' with
            | [next] => run g limit' next state'
            | _ => raise (LibraryError "Unsupported" ("Successors of: " ++ node))
            end
        end
    end.

Definition invoke (g : StateGraph) (input : GraphState) : M W GraphState :=
  match successors g START input with
  | [entry] => run g recursion_limit entry input
  | _ => raise (LibraryError "ValueError" "Graph must have an entrypoint")
  end.

(** [app = workflow.compile()] and [app.invoke]. *)
Definition app_invoke (input : GraphState) : M W GraphState :=
  invoke workflow input.

(** The state [run_streamlit] starts every request with. *)
Definition initial_state (prompt : string) : GraphState :=
  mkState prompt "" "" [] [].

Definition request (prompt : string) : M W GraphState :=
  app_invoke (initial_state prompt).

(** *** The grading of a chunk list, in the words of the specification *)

(** The verdicts of the grading model on the chunks, asked one by one in
    order. *)
Fixpoint judgments (question : string) (documents : list Document)
  : M W (list string) :=
  match documents with
  | [] => ret []
  | d :: rest =>
      score <- retrieval_grader_invoke svc question (page_content d) ;;
      grades <- judgments question rest ;;
      ret (binary_score score :: grades)
  end.

(** The fixed order of the stages: retrieve, grade, search when the flag is
    ["Yes"], generate; every stage's update is merged before the next runs. *)
Definition pipeline (input : GraphState) : M W GraphState :=
  u1 <- retrieve input ;;
  let s1 := apply_update input u1 in
  u2 <- grade_documents s1 ;;
  let s2 := apply_update s1 u2 in
  if search s2 =? "Yes" then
    u3 <- web_search s2 ;;
    let s3 := apply_update s2 u3 in
    u4 <- generate s3 ;;
    ret (apply_update s3 u4)
  else
    u4 <- generate s2 ;;
    ret (apply_update s2 u4).

End Embedding.

Arguments Services : clear implicits.
Arguments StateGraph : clear implicits.

(** The chunks graded ["yes"], in their order. *)
Fixpoint retained (documents : list Document) (grades : list string)
  : list Document :=
  match documents, grades with
  | d :: ds, g :: gs =>
      if g =? "yes" then d :: retained ds gs else retained ds gs
  | _, _ => []
  end.

(** A verdict that is not ["yes"]. *)
Definition irrelevant (grade : string) : Prop := grade <> "yes".

(** Whether every verdict of a list is ["yes"]. *)
Definition all_yes (grades : list string) : bool :=
  forallb (fun g => g =? "yes") grades.

(** The two step traces: without and with the web search. *)
Definition direct_trace : list string :=
  ["retrieve_documents"; "grade_document_retrieval"; "generate_answer"].

Definition search_trace : list string :=
  ["retrieve_documents"; "grade_document_retrieval"; "web_search"; "generate_answer"].

(** [final] holds every chunk of [filtered] and at least one chunk more. *)
Definition strict_superset (final filtered : list Document) : Prop :=
  incl filtered final /\ List.length filtered < List.length final.

(** Metadata with the single key ["url"]. *)
Definition url_only (d : Document) : Prop := map fst (metadata d) = ["url"].

(** [kept] is [all] with some elements left out, the others in their order. *)
Inductive subsequence {A : Type} : list A -> list A -> Prop :=
| subsequence_nil : subsequence [] []
| subsequence_keep x kept all :
    subsequence kept all -> subsequence (x :: kept) (x :: all)
| subsequence_drop x kept all :
    subsequence kept all -> subsequence kept (x :: all).

End Graph.

(** ** The chat page *)

Module Chat.

Import Graph.

(** An entry of [st.session_state.schedule_messages]; only the assistant's
    entries are stored with a ["steps"] key. *)
Record Message : Type := mkMessage {
  role : string;
  content : string;
  timestamp : string;
  message_steps : option (list string)
}.

(** [st.session_state], where the key ["schedule_messages"] may be missing. *)
Record SessionState : Type := mkSession {
  schedule_messages : option (list Message)
}.

(** The calls to the page library, recorded in the order they are made. *)
Inductive StCall : Type :=
| StChatMessage (name : string)
| StMarkdown (body : string)
| StExpander (label : string)
| StWrite (lines : list string)
| StChatInput (placeholder : string)
| StSpinner (text : string)
| StError (body : string)
| StRerun.

Definition newline : string := String (Ascii.ascii_of_nat 10) EmptyString.

(** The f-string given to [st.markdown]: the text, a blank line, the
    timestamp in small grey print. *)
Definition bubble (text time : string) : string :=
  text ++ newline ++ newline ++
  "<div style='font-size:0.8em; color:#888;'>" ++ time ++ "</div>".

(** Truth value of what [st.chat_input] returned. *)
Definition prompt_given (prompt : option string) : bool :=
  match prompt with
  | Some text => negb (text =? "")
  | None => false
  end.

Section Embedding.

Context {W : Type}.

(** What the page asks of the browser, the clock and the random source. *)
Record Frontend : Type := {
  st_chat_input : string -> M W (option string);
  datetime_now : M W string;
  uuid4 : M W string
}.

(** A run of the script: the world, the session state, and the calls made to
    the page library so far. *)
Record Script : Type := mkScript {
  world : W;
  session_state : SessionState;
  page : list StCall
}.

Context (svc : Services W) (F : Frontend).

(** A call that draws on the page. *)
Definition st (c : StCall) : M Script unit :=
  fun s => (inr tt, mkScript (world s) (session_state s) (page s ++ [c])).

(** A call answered by the world. *)
Definition ask {A : Type} (f : M W A) : M Script A :=
  fun s =>
    let (r, w') := f (world s) in
    (r, mkScript w' (session_state s) (page s)).

(** [if "schedule_messages" not in st.session_state: ... = []]. *)
Definition init_messages : M Script unit :=
  fun s =>
    match schedule_messages (session_state s) with
    | Some _ => (inr tt, s)
    | None => (inr tt, mkScript (world s) (mkSession (Some [])) (page s))
    end.

(** A read of [st.session_state.schedule_messages]. *)
Definition get_messages : M Script (list Message) :=
  fun s =>
    match schedule_messages (session_state s) with
    | Some messages => (inr messages, s)
    | None => (inl (LibraryError "AttributeError" "schedule_messages"), s)
    end.

(** [st.session_state.schedule_messages.append(m)]. *)
Definition append_message (m : Message) : M Script unit :=
  fun s =>
    match schedule_messages (session_state s) with
    | Some messages =>
        (inr tt, mkScript (world s) (mkSession (Some (messages ++ [m])%list)) (page s))
    | None => (inl (LibraryError "AttributeError" "schedule_messages"), s)
    end.

(** The body of the loop that displays the stored messages. *)
Definition show_message (message : Message) : M Script unit :=
  st (StChatMessage (role message)) ;;
  st (StMarkdown (bubble (content message) (timestamp message))) ;;
  match message_steps message with
  | Some lines =>
      if role message =? "assistant" then
        st (StExpander "View steps") ;;
        st (StWrite lines)
      else ret tt
  | None => ret tt
  end.

Fixpoint show_messages (messages : list Message) : M Script unit :=
  match messages with
  | [] => ret tt
  | message :: rest => show_message message ;; show_messages rest
  end.

(** The body of the [try]: run the graph, store and display the answer.  The
    state the graph returns always holds a generation and a trace, so the
    defaults of the two [response.get] calls are never used. *)
Definition answer (prompt : string) : M Script unit :=
  thread_id <- ask (uuid4 F) ;;
  response <- ask (request svc prompt) ;;
  let ai_response := generation response in
  let ai_steps := steps response in
  ai_timestamp <- ask (datetime_now F) ;;
  append_message (mkMessage "assistant" ai_response ai_timestamp (Some ai_steps)) ;;
  st (StChatMessage "assistant") ;;
  st (StMarkdown (bubble ai_response ai_timestamp)) ;;
  st (StExpander "View steps") ;;
  st (StWrite ai_steps).

Definition run_streamlit : M Script unit :=
  init_messages ;;
  messages <- get_messages ;;
  show_messages messages ;;
  prompt <- (st (StChatInput "Any question about VSA?") ;;
             ask (st_chat_input F "Any question about VSA?")) ;;
  match prompt with
  | Some text =>
      if prompt_given prompt then
        user_timestamp <- ask (datetime_now F) ;;
        append_message (mkMessage "user" text user_timestamp None) ;;
        st (StChatMessage "user") ;;
        st (StMarkdown (bubble text user_timestamp)) ;;
        st (StSpinner "Thinking...") ;;
        try_except (answer text)
          (fun e => st (StError ("An error occurred: " ++ str e))) ;;
        st StRerun
      else ret tt
  | None => ret tt
  end.

End Embedding.

Arguments Frontend : clear implicits.
Arguments Script : clear implicits.

(** *** The words used to state the page's properties *)

(** The stored messages, a missing key being read as no message. *)
Definition history {W : Type} (s : Script W) : list Message :=
  match schedule_messages (session_state s) with
  | Some messages => messages
  | None => []
  end.

(** The page calls that display one stored message. *)
Definition message_calls (message : Message) : list StCall :=
  ([StChatMessage (role message);
    StMarkdown (bubble (content message) (timestamp message))] ++
   match message_steps message with
   | Some lines =>
       if role message =? "assistant"
       then [StExpander "View steps"; StWrite lines]
       else []
   | None => []
   end)%list.

(** The page once the stored messages are displayed and the chat input is
    drawn. *)
Definition shown {W : Type} (s : Script W) : list StCall :=
  (page s ++ flat_map message_calls (history s) ++
   [StChatInput "Any question about VSA?"])%list.

Definition is_chat_message (c : StCall) : bool :=
  match c with
  | StChatMessage _ => true
  | _ => false
  end.

Definition is_write (c : StCall) : bool :=
  match c with
  | StWrite _ => true
  | _ => false
  end.

End Chat.

(** ** Concrete worlds

    Small instances of the two interfaces, on which the pipeline and the index
    routine can be evaluated. *)

Module Scenario.

Import Graph.

(** A chunk of the agreement and a chunk about something else. *)
Definition clause : Document :=
  mkDocument "Slot allocation between CHERRY and OLIVE"
             [("source", "./index_vsa/vsa.pdf"); ("page", "3")].

Definition off_topic : Document :=
  mkDocument "Weather report for the North Sea"
             [("source", "./index_vsa/vsa.pdf"); ("page", "9")].

Definition annex : Document :=
  mkDocument "Annex: port rotation" [("source", "./index_vsa/vsa.pdf"); ("page", "12")].

(** A grading model that answers ["yes"] on slot clauses, ["no"] on weather,
    and a capitalised ["Yes"] on anything else. *)
Definition verdict (text : string) : string :=
  if startswith text "Slot" then "yes"
  else if startswith text "Weather" then "no"
  else "Yes".

Definition hit : SearchResult :=
  mkResult "https://example.org/vsa" "Vessel sharing agreements in liner shipping".

(** Services whose world is the number of calls answered so far: the
    retriever returns [retrieved], the search tool returns [hits]. *)
Definition services (retrieved : list Document) (hits : list SearchResult)
  : Services nat :=
  {| retriever_invoke := fun _ w => (inr retrieved, S w);
     retrieval_grader_invoke := fun _ text w => (inr (mkGrade (verdict text)), S w);
     web_search_tool_invoke := fun _ w => (inr hits, S w);
     rag_chain_invoke := fun _ q w => (inr ("Answer to: " ++ q), S w) |}.

(** The state [grade_documents] receives after a retrieval of [docs]. *)
Definition retrieved_state (docs : list Document) : GraphState :=
  mkState "What is a slot?" "" "" docs ["retrieve_documents"].

(** A disk: the files on it, whether a stored index can be read back, and
    whether directories can be created. *)
Record Disk : Type := mkDisk {
  files : list string;
  readable : bool;
  writable : bool
}.

(** A platform whose index is the list of chunks it was built from. *)
Definition platform : VectorStore.Platform Disk (list Document) :=
  {| VectorStore.os_getcwd := fun _ => "/app";
     VectorStore.os_path_exists := fun path d => existsb (String.eqb path) (files d);
     VectorStore.FAISS_load_local := fun _ d =>
       if readable d then (inr [clause], d)
       else (inl (LibraryError "RuntimeError" "could not read index"), d);
     VectorStore.web_loader_load := fun source d =>
       (inr [mkDocument "page text" [("source", source)]], d);
     VectorStore.pdf_loader_load := fun source d =>
       (inr [mkDocument "pdf text" [("source", source)]], d);
     VectorStore.split_documents := fun docs d => (inr docs, d);
     VectorStore.FAISS_from_documents := fun docs d => (inr docs, d);
     VectorStore.os_makedirs := fun _ d =>
       if writable d then (inr tt, d)
       else (inl (LibraryError "PermissionError" "read-only file system"), d);
     VectorStore.save_local := fun _ path d =>
       (inr tt, mkDisk (files d ++ [path ++ "/index.faiss"]) (readable d) (writable d)) |}.

(** A process that has printed nothing and called nothing, on a given disk. *)
Definition fresh (d : Disk) : VectorStore.Proc Disk :=
  VectorStore.mkProc d [] [].

(** A browser in which [typed] has been entered, with a clock that shows the
    number of calls answered so far as its seconds. *)
Definition clock (w : nat) : string :=
  "2024-01-01 00:00:0" ++ String (Ascii.ascii_of_nat (48 + w)) EmptyString.

Definition frontend (typed : option string) : Chat.Frontend nat :=
  {| Chat.st_chat_input := fun _ w => (inr typed, S w);
     Chat.datetime_now := fun w => (inr (clock w), S w);
     Chat.uuid4 := fun w => (inr "0f8fad5b-d9cb-469f-a165-70867728950e", S w) |}.


(** Services whose grading model fails to produce a structured answer on
    annexes. *)
Definition services_strict (retrieved : list Document) : Services nat :=
  {| retriever_invoke := fun _ w => (inr retrieved, S w);
     retrieval_grader_invoke := fun _ text w =>
       if startswith text "Annex"
       then (inl (LibraryError "ValidationError" "binary_score missing"), S w)
       else (inr (mkGrade (verdict text)), S w);
     web_search_tool_invoke := fun _ w => (inr [], S w);
     rag_chain_invoke := fun _ q w => (inr ("Answer to: " ++ q), S w) |}.

(** An input state left over from an earlier run. *)
Definition stale_state : GraphState :=
  mkState "What is a slot?" "An old answer" "Yes" [annex] ["earlier_step"].


Definition earlier_exchange : list Chat.Message :=
  [Chat.mkMessage "user" "What is a VSA?" "2023-12-31 23:59:58" None;
   Chat.mkMessage "assistant" "A vessel sharing agreement." "2023-12-31 23:59:59"
     (Some direct_trace)].

Definition later_run : Chat.Script nat :=
  Chat.mkScript 0 (Chat.mkSession (Some earlier_exchange)) [].

Definition empty_disk : Disk := mkDisk [] true true.
Definition indexed_disk : Disk := mkDisk ["/app/index_vsa/index/index.faiss"] true true.
Definition corrupt_disk : Disk := mkDisk ["/app/index_vsa/index/index.faiss"] false true.
Definition readonly_disk : Disk := mkDisk [] true false.

End Scenario.

(** * Properties of the loader and of the index routine *)

(** The string tests and the path join on the values the program meets. *)
Example startswith_http :
  startswith "https://example.org/vsa" "http" = true /\
  startswith "./index_vsa/vsa.pdf" "http" = false /\
  startswith "htt" "http" = false.
Proof. repeat split. Qed.

Example endswith_pdf :
  endswith "./index_vsa/vsa.pdf" ".pdf" = true /\
  endswith "notes.docx" ".pdf" = false /\
  endswith "pdf" ".pdf" = false /\
  endswith "report.PDF" ".pdf" = false.
Proof. repeat split. Qed.

Example os_path_join_index :
  os_path_join (os_path_join "/app" "index_vsa") "index" = "/app/index_vsa/index" /\
  os_path_join "/app/" "index_vsa" = "/app/index_vsa" /\
  os_path_join "/app" "/srv/index" = "/srv/index".
Proof. repeat split. Qed.

Section VectorStoreProperties.

Import VectorStore.

Context {W Index : Type} (P : Platform W Index).

Lemma select_loader_unsupported source :
  supported source = false ->
  select_loader source = inl (ValueError ("Unsupported source type: " ++ source)).
Proof.
  unfold supported, select_loader. intros H.
  apply orb_false_iff in H as [-> ->]. reflexivity.
Qed.

Lemma select_loader_supported source loader :
  select_loader source = inr loader -> supported source = true.
Proof.
  unfold supported, select_loader.
  destruct (startswith source "http"); [reflexivity|].
  destruct (endswith source ".pdf"); [reflexivity | discriminate].
Qed.

Lemma index_builds_app cs cs' :
  index_builds (cs ++ cs') = index_builds cs + index_builds cs'.
Proof. unfold index_builds. rewrite filter_app, length_app. reflexivity. Qed.

(** Running a loader adds one call, which is not an index build. *)
Lemma loader_load_calls loader p :
  exists c,
    calls (snd (loader_load P loader p)) = (calls p ++ [c])%list /\
    is_build c = false.
Proof.
  destruct loader as [source|source]; unfold loader_load, invoke.
  - destruct (web_loader_load P source (world p)) as [r w'].
    exists (CallWebLoad source). split; reflexivity.
  - destruct (pdf_loader_load P source (world p)) as [r w'].
    exists (CallPdfLoad source). split; reflexivity.
Qed.

Lemma load_documents_loop_builds sources : forall docs p,
  index_builds (calls (snd (load_documents_loop P sources docs p)))
  = index_builds (calls p).
Proof.
  induction sources as [|source rest IH]; intros docs p; simpl.
  - reflexivity.
  - destruct (select_loader source) as [e|loader]; [reflexivity|].
    unfold bind.
    destruct (loader_load_calls loader p) as (c & Hc & Hb).
    destruct (loader_load P loader p) as [[e|loaded] p1]; simpl in Hc.
    + simpl. rewrite Hc, index_builds_app. unfold index_builds at 2.
      simpl. rewrite Hb. simpl. lia.
    + rewrite IH, Hc, index_builds_app. unfold index_builds at 2.
      simpl. rewrite Hb. simpl. lia.
Qed.

Lemma load_documents_loop_app before : forall after docs p,
  load_documents_loop P (before ++ after) docs p =
  match load_documents_loop P before docs p with
  | (inr docs', p1) => load_documents_loop P after docs' p1
  | (inl e, p1) => (inl e, p1)
  end.
Proof.
  induction before as [|source rest IH]; intros after docs p; simpl.
  - reflexivity.
  - destruct (select_loader source) as [e|loader]; [reflexivity|].
    unfold bind. destruct (loader_load P loader p) as [[e|loaded] p1];
      [reflexivity | apply IH].
Qed.

Lemma load_documents_loop_supported sources : forall docs p docs' p',
  load_documents_loop P sources docs p = (inr docs', p') ->
  forallb supported sources = true.
Proof.
  induction sources as [|source rest IH]; intros docs p docs' p' H; simpl in *.
  - reflexivity.
  - destruct (select_loader source) as [e|loader] eqn:E; [discriminate|].
    rewrite (select_loader_supported _ _ E). simpl.
    unfold bind in H. destruct (loader_load P loader p) as [[e|loaded] p1];
      [discriminate|]. eapply IH; eauto.
Qed.

(** With an unsupported source in the list the loop never returns. *)
Lemma load_documents_loop_unsupported before source after docs p :
  supported source = false ->
  exists e p', load_documents_loop P (before ++ source :: after) docs p = (inl e, p').
Proof.
  intros H. rewrite load_documents_loop_app.
  destruct (load_documents_loop P before docs p) as [[e|docs'] p1].
  - eauto.
  - simpl. rewrite (select_loader_unsupported _ H). unfold raise. eauto.
Qed.

(** The three ways [load_existing] can go. *)
Lemma load_existing_loaded index_path p vs w' :
  os_path_exists P (index_path ++ "/index.faiss") (world p) = true ->
  FAISS_load_local P index_path (world p) = (inr vs, w') ->
  load_existing P index_path p =
  (inr (Some vs),
   mkProc w'
     (stdout p ++
      ["Loading existing vector store from " ++ index_path ++ "/index.faiss";
       "Vector store loaded successfully."])
     (calls p ++ [CallLoadLocal index_path])).
Proof.
  intros Hex Hload.
  unfold load_existing, bind, observe, print, printed, try_except, invoke, ret.
  rewrite Hex. cbn. rewrite Hload. cbn. rewrite <- app_assoc. reflexivity.
Qed.

Lemma load_existing_failed index_path p e w' :
  os_path_exists P (index_path ++ "/index.faiss") (world p) = true ->
  FAISS_load_local P index_path (world p) = (inl e, w') ->
  load_existing P index_path p =
  (inr None,
   mkProc w'
     (stdout p ++
      ["Loading existing vector store from " ++ index_path ++ "/index.faiss";
       "Error loading vector store: " ++ str e;
       "Will create a new vector store."])
     (calls p ++ [CallLoadLocal index_path])).
Proof.
  intros Hex Hload.
  unfold load_existing, bind, observe, print, printed, try_except, invoke, ret.
  rewrite Hex. cbn. rewrite Hload. cbn. rewrite <- !app_assoc. reflexivity.
Qed.

Lemma load_existing_missing index_path p :
  os_path_exists P (index_path ++ "/index.faiss") (world p) = false ->
  load_existing P index_path p =
  (inr None,
   mkProc (world p)
     (stdout p ++ ["Vector store not found at " ++ index_path ++ "/index.faiss"])
     (calls p)).
Proof.
  intros Hex.
  unfold load_existing, bind, observe, print, printed, ret.
  rewrite Hex. reflexivity.
Qed.

(** [load_existing] builds no index. *)
Lemma load_existing_builds index_path p :
  index_builds (calls (snd (load_existing P index_path p))) = index_builds (calls p).
Proof.
  destruct (os_path_exists P (index_path ++ "/index.faiss") (world p)) eqn:Hex.
  - destruct (FAISS_load_local P index_path (world p)) as [[e|vs] w'] eqn:Hload.
    + rewrite (load_existing_failed _ _ _ _ Hex Hload). simpl.
      rewrite index_builds_app. unfold index_builds at 2. simpl. lia.
    + rewrite (load_existing_loaded _ _ _ _ Hex Hload). simpl.
      rewrite index_builds_app. unfold index_builds at 2. simpl. lia.
  - rewrite (load_existing_missing _ _ Hex). reflexivity.
Qed.

Lemma load_existing_returns index_path p :
  exists r p', load_existing P index_path p = (inr r, p').
Proof.
  destruct (os_path_exists P (index_path ++ "/index.faiss") (world p)) eqn:Hex.
  - destruct (FAISS_load_local P index_path (world p)) as [[e|vs] w'] eqn:Hload.
    + rewrite (load_existing_failed _ _ _ _ Hex Hload). eauto.
    + rewrite (load_existing_loaded _ _ _ _ Hex Hload). eauto.
  - rewrite (load_existing_missing _ _ Hex). eauto.
Qed.

(** [save_index] never raises: what the two calls raise is printed. *)
Lemma save_index_outcome vs index_dir index_path p :
  save_index P vs index_dir index_path p =
  match os_makedirs P index_dir (world p) with
  | (inl e, w1) =>
      (inr tt, mkProc w1 (stdout p ++ ["Error saving vector store: " ++ str e])
                 (calls p ++ [CallMakedirs index_dir]))
  | (inr _, w1) =>
      match save_local P vs index_path w1 with
      | (inl e, w2) =>
          (inr tt, mkProc w2 (stdout p ++ ["Error saving vector store: " ++ str e])
                     (calls p ++ [CallMakedirs index_dir; CallSaveLocal index_path]))
      | (inr _, w2) =>
          (inr tt, mkProc w2 (stdout p ++ ["Vector store saved successfully."])
                     (calls p ++ [CallMakedirs index_dir; CallSaveLocal index_path]))
      end
  end.
Proof.
  unfold save_index, try_except, bind, invoke, print, printed.
  destruct (os_makedirs P index_dir (world p)) as [[e|[]] w1]; cbn; [reflexivity|].
  destruct (save_local P vs index_path w1) as [[e|[]] w2]; cbn;
    rewrite <- app_assoc; reflexivity.
Qed.

(** When the sources cannot be loaded, [create_new] raises what the loader
    raised, in the state the loader left. *)
Lemma create_new_load_raises sources index_dir index_path p e p1 :
  load_documents P sources (printed "Creating new vector store..." p) = (inl e, p1) ->
  create_new P sources index_dir index_path p = (inl e, p1).
Proof.
  intros H. unfold create_new, bind, print. rewrite H. reflexivity.
Qed.

(** The same when the splitter or the construction of the index raises. *)
Lemma create_new_split_raises sources index_dir index_path p docs p1 e w2 :
  load_documents P sources (printed "Creating new vector store..." p) = (inr docs, p1) ->
  split_documents P docs (world p1) = (inl e, w2) ->
  create_new P sources index_dir index_path p =
  (inl e, mkProc w2 (stdout p1) (calls p1 ++ [CallSplitDocuments])).
Proof.
  intros Hl Hs. unfold create_new, bind, print. rewrite Hl.
  unfold invoke. rewrite Hs. reflexivity.
Qed.

Lemma create_new_build_raises sources index_dir index_path p docs p1 splits w2 e w3 :
  load_documents P sources (printed "Creating new vector store..." p) = (inr docs, p1) ->
  split_documents P docs (world p1) = (inr splits, w2) ->
  FAISS_from_documents P splits w2 = (inl e, w3) ->
  create_new P sources index_dir index_path p =
  (inl e, mkProc w3 (stdout p1) (calls p1 ++ [CallSplitDocuments; CallFromDocuments])).
Proof.
  intros Hl Hs Hb. unfold create_new, bind, print. rewrite Hl.
  unfold invoke. rewrite Hs. cbn. rewrite Hb. cbn. rewrite <- app_assoc. reflexivity.
Qed.

(** When the sources load and the index is built from them, [create_new]
    returns that index, in the state [save_index] leaves. *)
Lemma create_new_built sources index_dir index_path p docs p1 splits w2 vs w3 :
  load_documents P sources (printed "Creating new vector store..." p) = (inr docs, p1) ->
  split_documents P docs (world p1) = (inr splits, w2) ->
  FAISS_from_documents P splits w2 = (inr vs, w3) ->
  create_new P sources index_dir index_path p =
  (inr vs,
   snd (save_index P vs index_dir index_path
          (mkProc w3
             (stdout p1 ++ ["Saving vector store to " ++ index_path ++ "..."])
             (calls p1 ++ [CallSplitDocuments; CallFromDocuments])))).
Proof.
  intros Hl Hs Hb. unfold create_new, bind, print. rewrite Hl.
  unfold invoke. rewrite Hs. cbn. rewrite Hb. cbn. unfold printed. cbn.
  rewrite <- app_assoc. cbn.
  rewrite save_index_outcome. cbn.
  destruct (os_makedirs P index_dir w3) as [[e|[]] w4]; [reflexivity|].
  destruct (save_local P vs index_path w4) as [[e|[]] w5]; reflexivity.
Qed.

(** C8.  A source that neither starts with ["http"] nor ends with
    [".pdf"] makes [load_documents] fail whatever else the list holds; when
    the sources before it load, what is raised is the unsupported-source
    error, in the state those loads left (no loader is run for it or for the
    sources after it); the build of a new index raises with it before any
    index is built from documents, and so [create_or_load_vectorstore] given
    such a list never builds one. *)
Theorem load_documents_rejects_unsupported before source after :
  supported source = false ->
  (forall p docs p',
     load_documents P (before ++ source :: after) p <> (inr docs, p')) /\
  (forall p docs p1,
     load_documents P before p = (inr docs, p1) ->
     load_documents P (before ++ source :: after) p
     = (inl (ValueError ("Unsupported source type: " ++ source)), p1)) /\
  (forall index_dir index_path p,
     exists e p',
       create_new P (before ++ source :: after) index_dir index_path p = (inl e, p') /\
       index_builds (calls p') = index_builds (calls p)) /\
  (forall index_name p,
     index_builds
       (calls (snd (create_or_load_vectorstore P (before ++ source :: after)
                      index_name p)))
     = index_builds (calls p)).
Proof.
  intros Hsrc.
  assert (Hnew : forall index_dir index_path p,
             exists e p',
               create_new P (before ++ source :: after) index_dir index_path p
               = (inl e, p') /\
               index_builds (calls p') = index_builds (calls p)).
  { intros index_dir index_path p.
    destruct (load_documents_loop_unsupported before source after []
                (printed "Creating new vector store..." p) Hsrc) as (e & p' & He).
    exists e, p'. split; [apply create_new_load_raises, He|].
    pose proof (load_documents_loop_builds (before ++ source :: after) []
                  (printed "Creating new vector store..." p)) as Hb.
    rewrite He in Hb. exact Hb. }
  split; [|split; [|split]].
  - intros p docs p' H.
    destruct (load_documents_loop_unsupported before source after [] p Hsrc)
      as (e & p1 & He).
    unfold load_documents in H. congruence.
  - intros p docs p1 H. unfold load_documents in *.
    rewrite load_documents_loop_app, H. simpl.
    rewrite (select_loader_unsupported _ Hsrc). reflexivity.
  - exact Hnew.
  - intros index_name p. unfold create_or_load_vectorstore, bind, observe, print.
    set (index_dir := os_path_join (os_getcwd P (world p)) index_name).
    set (index_path := os_path_join index_dir "index").
    set (p0 := printed _ p).
    pose proof (load_existing_builds index_path p0) as Hb.
    destruct (load_existing_returns index_path p0) as (r & p1 & Hr).
    rewrite Hr in Hb |- *. simpl in Hb.
    destruct r as [vs|].
    + simpl. exact Hb.
    + destruct (Hnew index_dir index_path p1) as (e & p' & He & Hb').
      rewrite He. simpl. rewrite Hb', Hb. reflexivity.
Qed.

(** C9, as the code has it.  An index found at the fixed path and read
    back is returned, and nothing is loaded or built.  When reading it back
    raises, the error is printed and the function goes on as if none had
    been found: it builds a new index from the sources.  In that build, an
    error raised while creating the directory or saving the index is
    printed and the built index is returned all the same; an error raised
    while loading the sources, splitting them or building the index from
    them is raised by the function itself. *)
Theorem create_or_load_vectorstore_cases sources index_name p :
  let index_dir := os_path_join (os_getcwd P (world p)) index_name in
  let index_path := os_path_join index_dir "index" in
  let checked :=
    (stdout p ++
     [("Checking for index at: " ++ index_path ++ "/index.faiss")%string])%list in
  (forall vs w',
     os_path_exists P (index_path ++ "/index.faiss") (world p) = true ->
     FAISS_load_local P index_path (world p) = (inr vs, w') ->
     create_or_load_vectorstore P sources index_name p =
     (inr vs,
      mkProc w'
        (checked ++
         ["Loading existing vector store from " ++ index_path ++ "/index.faiss";
          "Vector store loaded successfully."])
        (calls p ++ [CallLoadLocal index_path]))) /\
  (forall e w',
     os_path_exists P (index_path ++ "/index.faiss") (world p) = true ->
     FAISS_load_local P index_path (world p) = (inl e, w') ->
     create_or_load_vectorstore P sources index_name p =
     create_new P sources index_dir index_path
       (mkProc w'
          (checked ++
           ["Loading existing vector store from " ++ index_path ++ "/index.faiss";
            "Error loading vector store: " ++ str e;
            "Will create a new vector store."])
          (calls p ++ [CallLoadLocal index_path]))) /\
  (os_path_exists P (index_path ++ "/index.faiss") (world p) = false ->
   create_or_load_vectorstore P sources index_name p =
   create_new P sources index_dir index_path
     (mkProc (world p)
        (checked ++ ["Vector store not found at " ++ index_path ++ "/index.faiss"])
        (calls p))) /\
  (forall q docs q1 splits w2 vs w3,
     load_documents P sources (printed "Creating new vector store..." q)
     = (inr docs, q1) ->
     split_documents P docs (world q1) = (inr splits, w2) ->
     FAISS_from_documents P splits w2 = (inr vs, w3) ->
     exists q',
       create_new P sources index_dir index_path q = (inr vs, q') /\
       (forall e w4,
          os_makedirs P index_dir w3 = (inl e, w4) ->
          world q' = w4 /\
          last (stdout q') "" = "Error saving vector store: " ++ str e) /\
       (forall w4 e w5,
          os_makedirs P index_dir w3 = (inr tt, w4) ->
          save_local P vs index_path w4 = (inl e, w5) ->
          world q' = w5 /\
          last (stdout q') "" = "Error saving vector store: " ++ str e) /\
       (forall w4 w5,
          os_makedirs P index_dir w3 = (inr tt, w4) ->
          save_local P vs index_path w4 = (inr tt, w5) ->
          world q' = w5 /\
          last (stdout q') "" = "Vector store saved successfully.")) /\
  (forall q e q1,
     load_documents P sources (printed "Creating new vector store..." q)
     = (inl e, q1) ->
     create_new P sources index_dir index_path q = (inl e, q1)) /\
  (forall q docs q1 e w2,
     load_documents P sources (printed "Creating new vector store..." q)
     = (inr docs, q1) ->
     split_documents P docs (world q1) = (inl e, w2) ->
     exists q', create_new P sources index_dir index_path q = (inl e, q')) /\
  (forall q docs q1 splits w2 e w3,
     load_documents P sources (printed "Creating new vector store..." q)
     = (inr docs, q1) ->
     split_documents P docs (world q1) = (inr splits, w2) ->
     FAISS_from_documents P splits w2 = (inl e, w3) ->
     exists q', create_new P sources index_dir index_path q = (inl e, q')).
Proof.
  intros index_dir index_path checked.
  split; [|split; [|split; [|split; [|split; [|split]]]]].
  - intros vs w' Hex Hload.
    unfold create_or_load_vectorstore, bind, observe, print.
    fold index_dir. fold index_path.
    erewrite load_existing_loaded by (cbn; eassumption).
    reflexivity.
  - intros e w' Hex Hload.
    unfold create_or_load_vectorstore, bind, observe, print.
    fold index_dir. fold index_path.
    erewrite load_existing_failed by (cbn; eassumption).
    reflexivity.
  - intros Hex.
    unfold create_or_load_vectorstore, bind, observe, print.
    fold index_dir. fold index_path.
    erewrite load_existing_missing by (cbn; eassumption).
    reflexivity.
  - intros q docs q1 splits w2 vs w3 Hl Hs Hb. eexists.
    split; [apply (create_new_built _ _ _ _ _ _ _ _ _ _ Hl Hs Hb)|].
    rewrite save_index_outcome. cbn.
    split; [|split].
    + intros e w4 Hm. rewrite Hm. cbn. split; [reflexivity | apply last_last].
    + intros w4 e w5 Hm Hsave. rewrite Hm, Hsave. cbn.
      split; [reflexivity | apply last_last].
    + intros w4 w5 Hm Hsave. rewrite Hm, Hsave. cbn.
      split; [reflexivity | apply last_last].
  - intros q e q1 H. apply create_new_load_raises, H.
  - intros q docs q1 e w2 Hl Hs. eexists.
    apply (create_new_split_raises _ _ _ _ _ _ _ _ Hl Hs).
  - intros q docs q1 splits w2 e w3 Hl Hs Hb. eexists.
    apply (create_new_build_raises _ _ _ _ _ _ _ _ _ _ Hl Hs Hb).
Qed.

End VectorStoreProperties.

(** ** The loader and the index routine on concrete disks *)

Section VectorStoreScenarios.

Import VectorStore Scenario.

Lemma load_documents_rejects_unsupported_witness :
  supported "notes.docx" = false /\
  load_documents platform
    ["./index_vsa/vsa.pdf"; "notes.docx"; "https://example.org/vsa"]
    (fresh empty_disk)
  = (inl (ValueError "Unsupported source type: notes.docx"),
     mkProc empty_disk [] [CallPdfLoad "./index_vsa/vsa.pdf"]) /\
  index_builds
    (calls (snd (create_or_load_vectorstore platform
                   ["./index_vsa/vsa.pdf"; "notes.docx"; "https://example.org/vsa"]
                   default_index_name (fresh empty_disk))))
  = index_builds (calls (fresh empty_disk)).
Proof.
  split; [reflexivity|].
  destruct (load_documents_rejects_unsupported platform
              ["./index_vsa/vsa.pdf"] "notes.docx" ["https://example.org/vsa"] eq_refl)
    as (_ & Hraised & _ & Hbuilds).
  split.
  - apply (Hraised (fresh empty_disk)
             [mkDocument "pdf text" [("source", "./index_vsa/vsa.pdf")]]).
    reflexivity.
  - apply Hbuilds.
Defined.

(** With an unreadable index on disk and a source that cannot be loaded,
    the rebuild raises and no index is returned. *)
Lemma rebuild_failure_raises_counterexample :
  create_or_load_vectorstore platform ["notes.docx"] default_index_name
    (fresh corrupt_disk)
  = (inl (ValueError "Unsupported source type: notes.docx"),
     mkProc corrupt_disk
       ["Checking for index at: /app/index_vsa/index/index.faiss";
        "Loading existing vector store from /app/index_vsa/index/index.faiss";
        "Error loading vector store: could not read index";
        "Will create a new vector store.";
        "Creating new vector store..."]
       [CallLoadLocal "/app/index_vsa/index"]) /\
  ~ (exists vs p',
       create_or_load_vectorstore platform ["notes.docx"] default_index_name
         (fresh corrupt_disk) = (inr vs, p')).
Proof.
  split; [vm_compute; reflexivity|].
  intros (vs & p' & H). vm_compute in H. discriminate H.
Qed.

Lemma create_or_load_vectorstore_cases_witness :
  (* an index on disk that can be read *)
  create_or_load_vectorstore platform sources default_index_name (fresh indexed_disk)
  = (inr [clause],
     mkProc indexed_disk
       ["Checking for index at: /app/index_vsa/index/index.faiss";
        "Loading existing vector store from /app/index_vsa/index/index.faiss";
        "Vector store loaded successfully."]
       [CallLoadLocal "/app/index_vsa/index"]) /\
  (* an index on disk that cannot be read *)
  create_or_load_vectorstore platform sources default_index_name (fresh corrupt_disk)
  = create_new platform sources "/app/index_vsa" "/app/index_vsa/index"
      (mkProc corrupt_disk
         ["Checking for index at: /app/index_vsa/index/index.faiss";
          "Loading existing vector store from /app/index_vsa/index/index.faiss";
          "Error loading vector store: could not read index";
          "Will create a new vector store."]
         [CallLoadLocal "/app/index_vsa/index"]) /\
  (* no index on disk *)
  create_or_load_vectorstore platform sources default_index_name (fresh empty_disk)
  = create_new platform sources "/app/index_vsa" "/app/index_vsa/index"
      (mkProc empty_disk
         ["Checking for index at: /app/index_vsa/index/index.faiss";
          "Vector store not found at /app/index_vsa/index/index.faiss"]
         []) /\
  (* a disk on which the index cannot be saved *)
  (exists q',
     create_new platform sources "/app/index_vsa" "/app/index_vsa/index"
       (fresh readonly_disk)
     = (inr [mkDocument "pdf text" [("source", "./index_vsa/vsa.pdf")]], q') /\
     world q' = readonly_disk /\
     last (stdout q') "" = "Error saving vector store: read-only file system") /\
  (* a source that cannot be loaded *)
  create_new platform ["notes.docx"] "/app/index_vsa" "/app/index_vsa/index"
    (fresh empty_disk)
  = (inl (ValueError "Unsupported source type: notes.docx"),
     mkProc empty_disk ["Creating new vector store..."] []).
Proof.
  destruct (create_or_load_vectorstore_cases platform sources default_index_name
              (fresh indexed_disk)) as (Hloaded & _).
  destruct (create_or_load_vectorstore_cases platform sources default_index_name
              (fresh corrupt_disk)) as (_ & Hfailed & _).
  destruct (create_or_load_vectorstore_cases platform sources default_index_name
              (fresh empty_disk)) as (_ & _ & Hmissing & _).
  destruct (create_or_load_vectorstore_cases platform sources default_index_name
              (fresh readonly_disk)) as (_ & _ & _ & Hbuilt & _).
  destruct (create_or_load_vectorstore_cases platform ["notes.docx"] default_index_name
              (fresh empty_disk)) as (_ & _ & _ & _ & Hraised & _).
  split; [|split; [|split; [|split]]].
  - apply (Hloaded [clause] indexed_disk); reflexivity.
  - apply (Hfailed (LibraryError "RuntimeError" "could not read index") corrupt_disk);
      reflexivity.
  - apply Hmissing. reflexivity.
  - destruct (Hbuilt (fresh readonly_disk)
                [mkDocument "pdf text" [("source", "./index_vsa/vsa.pdf")]]
                (mkProc readonly_disk ["Creating new vector store..."]
                   [CallPdfLoad "./index_vsa/vsa.pdf"])
                [mkDocument "pdf text" [("source", "./index_vsa/vsa.pdf")]]
                readonly_disk
                [mkDocument "pdf text" [("source", "./index_vsa/vsa.pdf")]]
                readonly_disk eq_refl eq_refl eq_refl)
      as (q' & Hq & Hmk & _).
    exists q'. split; [exact Hq|].
    apply (Hmk (LibraryError "PermissionError" "read-only file system") readonly_disk).
    reflexivity.
  - apply (Hraised (fresh empty_disk)). reflexivity.
Defined.

End VectorStoreScenarios.

(** * Properties of the graph *)

Section GraphProperties.

Import Graph.

Context {W : Type} (svc : Services W).

Lemma all_yes_true grades :
  all_yes grades = true <-> Forall (fun g => g = "yes") grades.
Proof.
  unfold all_yes. rewrite forallb_forall, Forall_forall.
  split; intros H g Hg; apply String.eqb_eq; auto.
Qed.

Lemma all_yes_false grades :
  all_yes grades = false <-> Exists irrelevant grades.
Proof.
  unfold all_yes, irrelevant. induction grades as [|g gs IH]; simpl.
  - split; [discriminate | intros H; inversion H].
  - destruct (String.eqb_spec g "yes") as [->|Hg]; simpl.
    + rewrite IH. split; intros H.
      * now apply Exists_cons_tl.
      * inversion H; subst; [congruence | assumption].
    + split; intros _; [now apply Exists_cons_hd | reflexivity].
Qed.

Lemma judgments_length q docs : forall w grades w',
  judgments svc q docs w = (inr grades, w') -> List.length grades = List.length docs.
Proof.
  induction docs as [|d ds IH]; simpl; intros w grades w' H.
  - inversion H. reflexivity.
  - unfold bind in H.
    destruct (retrieval_grader_invoke svc q (page_content d) w) as [[e|score] w1];
      [discriminate|].
    destruct (judgments svc q ds w1) as [[e|gs] w2] eqn:E; [discriminate|].
    inversion H; subst. simpl. f_equal. eapply IH; eauto.
Qed.

Lemma retained_app ds1 : forall gs1 ds2 gs2,
  List.length gs1 = List.length ds1 ->
  retained (ds1 ++ ds2) (gs1 ++ gs2) = (retained ds1 gs1 ++ retained ds2 gs2)%list.
Proof.
  induction ds1 as [|d ds1 IH]; intros [|g gs1] ds2 gs2 Hlen;
    simpl in *; try discriminate; try reflexivity.
  destruct (g =? "yes"); simpl; rewrite IH by lia; reflexivity.
Qed.

Lemma retained_all_yes ds : forall gs,
  List.length gs = List.length ds -> all_yes gs = true -> retained ds gs = ds.
Proof.
  induction ds as [|d ds IH]; intros [|g gs] Hlen Hall;
    simpl in *; try discriminate; try reflexivity.
  apply andb_true_iff in Hall as [Hg Hall]. rewrite Hg.
  f_equal. apply IH; [lia | exact Hall].
Qed.

(** The loop of [grade_documents] asks for the verdicts in order, keeps what
    is graded ["yes"] behind the chunks already kept, and raises the flag
    once a verdict is anything else. *)
Lemma grade_loop_judgments q docs : forall kept flag w,
  grade_loop svc q docs kept flag w =
  match judgments svc q docs w with
  | (inr grades, w') =>
      (inr ((kept ++ retained docs grades)%list,
            if all_yes grades then flag else "Yes"), w')
  | (inl e, w') => (inl e, w')
  end.
Proof.
  induction docs as [|d ds IH]; intros kept flag w; simpl.
  - unfold ret. rewrite app_nil_r. reflexivity.
  - unfold bind.
    destruct (retrieval_grader_invoke svc q (page_content d) w) as [[e|score] w1];
      [reflexivity|].
    destruct (binary_score score =? "yes") eqn:Hg; rewrite IH;
      destruct (judgments svc q ds w1) as [[e|gs] w2]; try reflexivity;
      unfold ret; simpl; rewrite Hg; simpl.
    + rewrite <- app_assoc. reflexivity.
    + destruct (all_yes gs); reflexivity.
Qed.

Lemma grade_documents_judged state w grades w' :
  judgments svc (question state) (documents state) w = (inr grades, w') ->
  grade_documents svc state w =
  (inr (mkUpdate (Some (retained (documents state) grades))
                 (Some (question state)) None
                 (Some (if all_yes grades then "No" else "Yes"))
                 (Some (steps state ++ ["grade_document_retrieval"])%list)), w').
Proof.
  intros H. unfold grade_documents, bind.
  rewrite grade_loop_judgments, H. reflexivity.
Qed.

Lemma grade_documents_raises state w e w' :
  judgments svc (question state) (documents state) w = (inl e, w') ->
  grade_documents svc state w = (inl e, w').
Proof.
  intros H. unfold grade_documents, bind.
  rewrite grade_loop_judgments, H. reflexivity.
Qed.

(** The compiled graph runs the stages in the fixed order: the bound on the
    number of node runs is never reached, and no node is missing. *)
Lemma app_invoke_pipeline input w : app_invoke svc input w = pipeline svc input w.
Proof.
  unfold app_invoke, invoke, pipeline. cbn. unfold bind.
  destruct (retrieve svc input w) as [[e|u1] w1]; [reflexivity|].
  destruct (grade_documents svc (apply_update input u1) w1) as [[e|u2] w2];
    [reflexivity|].
  unfold decide_to_generate.
  destruct (search (apply_update (apply_update input u1) u2) =? "Yes") eqn:E;
    cbn in E |- *; rewrite E.
  - destruct (web_search svc _ w2) as [[e|u3] w3]; [reflexivity|].
    destruct (generate svc _ w3) as [[e|u4] w4]; reflexivity.
  - destruct (generate svc _ w2) as [[e|u4] w4]; reflexivity.
Qed.

(** What a request does, stage by stage, in terms of the four services. *)
Lemma request_outcome prompt w :
  request svc prompt w =
  match retriever_invoke svc prompt w with
  | (inl e, w1) => (inl e, w1)
  | (inr docs, w1) =>
      match judgments svc prompt docs w1 with
      | (inl e, w2) => (inl e, w2)
      | (inr grades, w2) =>
          if all_yes grades then
            match rag_chain_invoke svc (retained docs grades) prompt w2 with
            | (inl e, w3) => (inl e, w3)
            | (inr answer, w3) =>
                (inr (mkState prompt answer "No" (retained docs grades)
                        direct_trace), w3)
            end
          else
            match web_search_tool_invoke svc prompt w2 with
            | (inl e, w3) => (inl e, w3)
            | (inr hits, w3) =>
                let final_docs :=
                  (retained docs grades ++ map result_document hits)%list in
                match rag_chain_invoke svc final_docs prompt w3 with
                | (inl e, w4) => (inl e, w4)
                | (inr answer, w4) =>
                    (inr (mkState prompt answer "Yes" final_docs search_trace), w4)
                end
            end
      end
  end.
Proof.
  unfold request. rewrite app_invoke_pipeline.
  unfold pipeline, retrieve, bind.
  cbn -[grade_documents web_search generate].
  destruct (retriever_invoke svc prompt w) as [[e|docs] w1]; [reflexivity|].
  cbn -[grade_documents web_search generate].
  destruct (judgments svc prompt docs w1) as [[e|grades] w2] eqn:Hj.
  - erewrite grade_documents_raises by (cbn; exact Hj). reflexivity.
  - erewrite grade_documents_judged by (cbn; exact Hj).
    cbn -[web_search generate].
    destruct (all_yes grades); cbn -[web_search generate].
    + unfold generate, bind. cbn.
      destruct (rag_chain_invoke svc (retained docs grades) prompt w2)
        as [[e|answer] w3]; reflexivity.
    + unfold web_search, bind. cbn -[generate].
      destruct (web_search_tool_invoke svc prompt w2) as [[e|hits] w3];
        [reflexivity|].
      cbn -[generate]. unfold generate, bind. cbn.
      destruct (rag_chain_invoke svc _ prompt w3) as [[e|answer] w4]; reflexivity.
Qed.

(** A request whose chunks are all graded ["yes"]. *)
Lemma request_direct prompt w docs w1 grades w2 answer w3 :
  retriever_invoke svc prompt w = (inr docs, w1) ->
  judgments svc prompt docs w1 = (inr grades, w2) ->
  all_yes grades = true ->
  rag_chain_invoke svc (retained docs grades) prompt w2 = (inr answer, w3) ->
  request svc prompt w =
  (inr (mkState prompt answer "No" (retained docs grades) direct_trace), w3).
Proof.
  intros Hr Hj Hall Hg. rewrite request_outcome, Hr, Hj, Hall, Hg. reflexivity.
Qed.

(** A request with a chunk graded otherwise. *)
Lemma request_search prompt w docs w1 grades w2 hits w3 answer w4 :
  retriever_invoke svc prompt w = (inr docs, w1) ->
  judgments svc prompt docs w1 = (inr grades, w2) ->
  all_yes grades = false ->
  web_search_tool_invoke svc prompt w2 = (inr hits, w3) ->
  rag_chain_invoke svc (retained docs grades ++ map result_document hits) prompt w3
    = (inr answer, w4) ->
  request svc prompt w =
  (inr (mkState prompt answer "Yes"
          (retained docs grades ++ map result_document hits) search_trace), w4).
Proof.
  intros Hr Hj Hall Hs Hg. rewrite request_outcome, Hr, Hj, Hall, Hs.
  cbv zeta. rewrite Hg. reflexivity.
Qed.

(** Every request that returns went one of these two ways. *)
Lemma request_inv prompt w final w' :
  request svc prompt w = (inr final, w') ->
  exists docs w1 grades w2,
    retriever_invoke svc prompt w = (inr docs, w1) /\
    judgments svc prompt docs w1 = (inr grades, w2) /\
    ((all_yes grades = true /\
      exists answer,
        rag_chain_invoke svc (retained docs grades) prompt w2 = (inr answer, w') /\
        final = mkState prompt answer "No" (retained docs grades) direct_trace)
     \/
     (all_yes grades = false /\
      exists hits w3 answer,
        web_search_tool_invoke svc prompt w2 = (inr hits, w3) /\
        rag_chain_invoke svc (retained docs grades ++ map result_document hits)
          prompt w3 = (inr answer, w') /\
        final = mkState prompt answer "Yes"
                  (retained docs grades ++ map result_document hits) search_trace)).
Proof.
  rewrite request_outcome. intros H.
  destruct (retriever_invoke svc prompt w) as [[e|docs] w1] eqn:Hr; [discriminate|].
  destruct (judgments svc prompt docs w1) as [[e|grades] w2] eqn:Hj; [discriminate|].
  exists docs, w1, grades, w2. split; [reflexivity|]. split; [exact Hj|].
  destruct (all_yes grades).
  - left. split; [reflexivity|].
    destruct (rag_chain_invoke svc (retained docs grades) prompt w2)
      as [[e|answer] w3] eqn:Hg; [discriminate|].
    inversion H; subst. exists answer. split; [reflexivity | reflexivity].
  - right. split; [reflexivity|].
    destruct (web_search_tool_invoke svc prompt w2) as [[e|hits] w3] eqn:Hs;
      [discriminate|].
    cbv zeta in H.
    destruct (rag_chain_invoke svc (retained docs grades ++ map result_document hits)
                prompt w3) as [[e|answer] w4] eqn:Hg; [discriminate|].
    inversion H; subst. exists hits, w3, answer.
    split; [reflexivity|]. split; [exact Hg | reflexivity].
Qed.

(** The trace of a request that returns is one of the two. *)
Lemma request_trace prompt w final w' :
  request svc prompt w = (inr final, w') ->
  steps final = direct_trace \/ steps final = search_trace.
Proof.
  intros H. apply request_inv in H.
  destruct H as (docs & w1 & grades & w2 & _ & _ & [(_ & answer & _ & ->) |
                 (_ & hits & w3 & answer & _ & _ & ->)]); [left | right]; reflexivity.
Qed.

(** When the four services answer every call, so does a request. *)
Lemma judgments_return q docs :
  (forall text w, exists score w',
      retrieval_grader_invoke svc q text w = (inr score, w')) ->
  forall w, exists grades w', judgments svc q docs w = (inr grades, w').
Proof.
  intros Hgrader. induction docs as [|d ds IH]; intros w; simpl.
  - unfold ret. eauto.
  - unfold bind. destruct (Hgrader (page_content d) w) as (score & w1 & ->).
    destruct (IH w1) as (grades & w2 & ->). unfold ret. eauto.
Qed.

Lemma request_returns prompt w :
  (forall w, exists docs w', retriever_invoke svc prompt w = (inr docs, w')) ->
  (forall text w, exists score w',
      retrieval_grader_invoke svc prompt text w = (inr score, w')) ->
  (forall w, exists hits w', web_search_tool_invoke svc prompt w = (inr hits, w')) ->
  (forall docs w, exists answer w',
      rag_chain_invoke svc docs prompt w = (inr answer, w')) ->
  exists final w', request svc prompt w = (inr final, w').
Proof.
  intros Hretriever Hgrader Hsearch Hchain. rewrite request_outcome.
  destruct (Hretriever w) as (docs & w1 & ->).
  destruct (judgments_return prompt docs Hgrader w1) as (grades & w2 & ->).
  destruct (all_yes grades).
  - destruct (Hchain (retained docs grades) w2) as (answer & w3 & ->). eauto.
  - destruct (Hsearch w2) as (hits & w3 & ->). cbv zeta.
    destruct (Hchain (retained docs grades ++ map result_document hits)%list w3)
      as (answer & w4 & ->).
    eauto.
Qed.

(** *** Grading *)

(** C2.  Once the grading model has given its verdicts on the retrieved
    chunks, [grade_documents] returns, its document list is exactly the
    chunks graded ["yes"], and its search flag is ["Yes"] if and only if at
    least one verdict is not ["yes"] (and ["No"] otherwise). *)
Theorem grade_documents_flag_iff_irrelevant state w grades w' :
  judgments svc (question state) (documents state) w = (inr grades, w') ->
  exists u,
    grade_documents svc state w = (inr u, w') /\
    u_documents u = Some (retained (documents state) grades) /\
    (u_search u = Some "Yes" <-> Exists irrelevant grades) /\
    (u_search u = Some "No" <-> Forall (fun g => g = "yes") grades).
Proof.
  intros Hj. eexists. split; [apply grade_documents_judged, Hj|].
  cbn. split; [reflexivity|].
  rewrite <- all_yes_false, <- all_yes_true.
  destruct (all_yes grades); split; split; intros H;
    try reflexivity; discriminate.
Qed.

(** C10.  A verdict other than the lowercase ["yes"], whatever string it
    is, is not a failure of [grade_documents]: the function returns, the
    chunk with that verdict is left out of the document list, and the search
    flag is ["Yes"]. *)
Theorem grade_documents_drops_not_yes
  state w before d after grades_before g grades_after w' :
  documents state = (before ++ d :: after)%list ->
  List.length grades_before = List.length before ->
  judgments svc (question state) (documents state) w
    = (inr (grades_before ++ g :: grades_after)%list, w') ->
  g <> "yes" ->
  exists u,
    grade_documents svc state w = (inr u, w') /\
    u_documents u
      = Some (retained before grades_before ++ retained after grades_after)%list /\
    u_search u = Some "Yes".
Proof.
  intros Hdocs Hlen Hj Hg. eexists. split; [apply grade_documents_judged, Hj|].
  cbn. split.
  - rewrite Hdocs, retained_app by exact Hlen. cbn.
    apply String.eqb_neq in Hg. rewrite Hg. reflexivity.
  - assert (Hall : all_yes (grades_before ++ g :: grades_after) = false).
    { apply all_yes_false, Exists_app. right. now apply Exists_cons_hd. }
    rewrite Hall. reflexivity.
Qed.

(** C1, as the code has it.  When the state holds no document,
    [grade_documents] asks for no verdict, returns an empty document list
    and the search flag ["No"], and the branch after grading leads to
    [generate], not to [web_search]. *)
Theorem grade_documents_empty_retrieval state w :
  documents state = [] ->
  exists u,
    grade_documents svc state w = (inr u, w) /\
    u_documents u = Some [] /\
    u_search u = Some "No" /\
    successors (workflow svc) "grade_documents" (apply_update state u) = ["generate"].
Proof.
  intros Hdocs. eexists. split.
  - apply grade_documents_judged. rewrite Hdocs. reflexivity.
  - rewrite Hdocs. cbn. repeat split; reflexivity.
Qed.

(** *** The graph *)

(** C3.  After [grade_documents] the run goes to [web_search] when the
    search flag of the state is ["Yes"] and to [generate] otherwise, both for
    the successor relation of the graph and for a run of it; [web_search]
    leads to [generate]; [generate] is the only node that leads to [END];
    and [grade_documents] is the only node with a conditional edge. *)
Theorem workflow_transitions state :
  successors (workflow svc) "grade_documents" state
    = [if search state =? "Yes" then "web_search" else "generate"] /\
  (forall limit w,
     run (workflow svc) (S limit) "grade_documents" state w =
     match grade_documents svc state w with
     | (inr u, w') =>
         run (workflow svc) limit
           (if search (apply_update state u) =? "Yes"
            then "web_search" else "generate")
           (apply_update state u) w'
     | (inl e, w') => (inl e, w')
     end) /\
  successors (workflow svc) "web_search" state = ["generate"] /\
  (forall node, In END (successors (workflow svc) node state) <-> node = "generate") /\
  map fst (branches (workflow svc)) = ["grade_documents"].
Proof.
  split; [|split; [|split; [|split]]].
  - cbn. unfold decide_to_generate. destruct (search state =? "Yes"); reflexivity.
  - intros limit w. cbn -[grade_documents]. unfold bind.
    destruct (grade_documents svc state w) as [[e|u] w']; [reflexivity|].
    cbn -[run]. unfold decide_to_generate.
    destruct (search (apply_update state u) =? "Yes") eqn:E;
      cbn -[run] in E |- *; rewrite E; reflexivity.
  - reflexivity.
  - intros node. unfold successors. cbn [workflow new_graph add_node add_edge
      set_entry_point add_conditional_edges edges branches nodes].
    cbn -[String.eqb]. unfold decide_to_generate.
    split.
    + intros H.
      destruct (String.eqb_spec "generate" node) as [E|E]; [now symmetry|].
      exfalso.
      destruct (START =? node), ("retrieve" =? node), ("web_search" =? node),
        ("grade_documents" =? node), (search state =? "Yes");
        cbn in H; intuition discriminate.
    + intros ->. cbn. destruct (search state =? "Yes"); cbn; auto.
  - reflexivity.
Qed.

(** *** The step trace and the document list of a request *)

(** C4, as the code has it.  In a request where some retrieved chunk is
    graded other than ["yes"], the web-search step is in the trace exactly
    once, and the documents given to generation are the chunks graded
    ["yes"] followed by the search results, each wrapped as a document whose
    metadata has the single key ["url"]: they contain the filtered chunks,
    and are strictly more than them exactly when the search returned a
    result. *)
Theorem search_appends_results
  prompt w docs w1 grades w2 hits w3 answer w4 :
  retriever_invoke svc prompt w = (inr docs, w1) ->
  judgments svc prompt docs w1 = (inr grades, w2) ->
  Exists irrelevant grades ->
  web_search_tool_invoke svc prompt w2 = (inr hits, w3) ->
  rag_chain_invoke svc (retained docs grades ++ map result_document hits) prompt w3
    = (inr answer, w4) ->
  exists final,
    request svc prompt w = (inr final, w4) /\
    count_occ string_dec (steps final) "web_search" = 1 /\
    documents final = (retained docs grades ++ map result_document hits)%list /\
    generation final = answer /\
    incl (retained docs grades) (documents final) /\
    Forall url_only (map result_document hits) /\
    (strict_superset (documents final) (retained docs grades) <-> hits <> []).
Proof.
  intros Hr Hj Hex Hs Hg. apply all_yes_false in Hex.
  eexists. split; [exact (request_search _ _ _ _ _ _ _ _ _ _ Hr Hj Hex Hs Hg)|].
  cbn [steps documents generation].
  split; [reflexivity|]. split; [reflexivity|]. split; [reflexivity|].
  split; [apply incl_appl, incl_refl|].
  split.
  - apply Forall_forall. intros d Hd. apply in_map_iff in Hd as (r & <- & _).
    reflexivity.
  - unfold strict_superset. rewrite length_app, length_map. split.
    + intros [_ Hlt] ->. simpl in Hlt. lia.
    + intros Hne. split; [apply incl_appl, incl_refl|].
      destruct hits; [congruence | simpl; lia].
Qed.

(** C5.  In a request where every retrieved chunk is graded ["yes"], the
    web-search step is not in the trace and the documents given to
    generation are the filtered list of grading, which is then the retrieved
    list itself. *)
Theorem all_relevant_skips_search prompt w docs w1 grades w2 answer w3 :
  retriever_invoke svc prompt w = (inr docs, w1) ->
  judgments svc prompt docs w1 = (inr grades, w2) ->
  Forall (fun g => g = "yes") grades ->
  rag_chain_invoke svc (retained docs grades) prompt w2 = (inr answer, w3) ->
  exists final,
    request svc prompt w = (inr final, w3) /\
    ~ In "web_search" (steps final) /\
    documents final = retained docs grades /\
    retained docs grades = docs /\
    generation final = answer.
Proof.
  intros Hr Hj Hall Hg. apply all_yes_true in Hall.
  eexists. split; [exact (request_direct _ _ _ _ _ _ _ _ Hr Hj Hall Hg)|].
  cbn [steps documents generation]. split.
  - unfold direct_trace. simpl. intuition discriminate.
  - split; [reflexivity|]. split; [|reflexivity].
    apply retained_all_yes; [eapply judgments_length; eauto | exact Hall].
Qed.

(** C6.  In the trace of a request that returns, the generation step is
    there exactly once and is the last entry. *)
Theorem generate_once_and_last prompt w final w' :
  request svc prompt w = (inr final, w') ->
  count_occ string_dec (steps final) "generate_answer" = 1 /\
  exists before,
    steps final = (before ++ ["generate_answer"])%list /\
    ~ In "generate_answer" before.
Proof.
  intros H. destruct (request_trace _ _ _ _ H) as [-> | ->]; split;
    try reflexivity.
  - exists ["retrieve_documents"; "grade_document_retrieval"].
    split; [reflexivity | simpl; intuition discriminate].
  - exists ["retrieve_documents"; "grade_document_retrieval"; "web_search"].
    split; [reflexivity | simpl; intuition discriminate].
Qed.

(** C7.  The trace of a request that returns, started as [run_streamlit]
    starts it, is not empty and begins with the retrieval step. *)
Theorem retrieve_first prompt w final w' :
  request svc prompt w = (inr final, w') ->
  steps final <> [] /\
  exists rest, steps final = "retrieve_documents" :: rest.
Proof.
  intros H. destruct (request_trace _ _ _ _ H) as [-> | ->];
    (split; [discriminate | eexists; reflexivity]).
Qed.

End GraphProperties.

(** ** The graph on concrete services *)

Section GraphScenarios.

Import Graph Scenario.

(** Grading an empty retrieval does not give the flag ["Yes"]. *)
Lemma grade_documents_empty_flag_counterexample :
  ~ (exists u w',
       grade_documents (services [] [hit]) (retrieved_state []) 1 = (inr u, w') /\
       u_documents u = Some [] /\
       u_search u = Some "Yes").
Proof.
  intros (u & w' & H & _ & Hflag). vm_compute in H.
  inversion H; subst. discriminate Hflag.
Qed.

Lemma grade_documents_empty_retrieval_witness :
  documents (retrieved_state []) = [] /\
  exists u,
    grade_documents (services [] [hit]) (retrieved_state []) 1 = (inr u, 1) /\
    u_documents u = Some [] /\
    u_search u = Some "No" /\
    successors (workflow (services [] [hit])) "grade_documents"
      (apply_update (retrieved_state []) u) = ["generate"].
Proof.
  split; [reflexivity|].
  apply (grade_documents_empty_retrieval (services [] [hit]) (retrieved_state []) 1).
  reflexivity.
Defined.

Lemma grade_documents_flag_iff_irrelevant_witness :
  judgments (services [] []) "What is a slot?" [clause; off_topic; clause] 1
    = (inr ["yes"; "no"; "yes"], 4) /\
  exists u,
    grade_documents (services [] []) (retrieved_state [clause; off_topic; clause]) 1
      = (inr u, 4) /\
    u_documents u = Some (retained [clause; off_topic; clause] ["yes"; "no"; "yes"]) /\
    (u_search u = Some "Yes" <-> Exists irrelevant ["yes"; "no"; "yes"]) /\
    (u_search u = Some "No" <-> Forall (fun g => g = "yes") ["yes"; "no"; "yes"]).
Proof.
  split; [reflexivity|].
  apply (grade_documents_flag_iff_irrelevant (services [] [])
           (retrieved_state [clause; off_topic; clause]) 1 ["yes"; "no"; "yes"] 4).
  reflexivity.
Defined.

(** A capitalised ["Yes"] is treated as any other verdict that is not
    ["yes"]. *)
Lemma grade_documents_drops_not_yes_witness :
  verdict (page_content annex) = "Yes" /\
  exists u,
    grade_documents (services [] []) (retrieved_state [clause; annex; clause]) 1
      = (inr u, 4) /\
    u_documents u = Some (retained [clause] ["yes"] ++ retained [clause] ["yes"])%list /\
    u_search u = Some "Yes".
Proof.
  split; [reflexivity|].
  apply (grade_documents_drops_not_yes (services [] [])
           (retrieved_state [clause; annex; clause]) 1
           [clause] annex [clause] ["yes"] "Yes" ["yes"] 4).
  - reflexivity.
  - reflexivity.
  - reflexivity.
  - discriminate.
Defined.

(** A search that returns nothing leaves the documents of generation equal
    to the filtered list. *)
Lemma search_without_results_counterexample :
  judgments (services [clause; off_topic] []) "What is a slot?" [clause; off_topic] 1
    = (inr ["yes"; "no"], 3) /\
  exists final,
    request (services [clause; off_topic] []) "What is a slot?" 0 = (inr final, 5) /\
    steps final = search_trace /\
    documents final = retained [clause; off_topic] ["yes"; "no"] /\
    ~ strict_superset (documents final) (retained [clause; off_topic] ["yes"; "no"]).
Proof.
  split; [reflexivity|].
  eexists. split; [vm_compute; reflexivity|].
  split; [reflexivity|]. split; [reflexivity|].
  intros [_ Hlt]. vm_compute in Hlt. lia.
Qed.

Lemma search_appends_results_witness :
  Exists irrelevant ["yes"; "no"] /\
  exists final,
    request (services [clause; off_topic] [hit]) "What is a slot?" 0 = (inr final, 5) /\
    count_occ string_dec (steps final) "web_search" = 1 /\
    documents final
      = (retained [clause; off_topic] ["yes"; "no"] ++ map result_document [hit])%list /\
    generation final = "Answer to: What is a slot?" /\
    incl (retained [clause; off_topic] ["yes"; "no"]) (documents final) /\
    Forall url_only (map result_document [hit]) /\
    (strict_superset (documents final) (retained [clause; off_topic] ["yes"; "no"])
     <-> [hit] <> []).
Proof.
  assert (H : Exists irrelevant ["yes"; "no"]).
  { apply Exists_cons_tl, Exists_cons_hd. discriminate. }
  split; [exact H|].
  apply (search_appends_results (services [clause; off_topic] [hit])
           "What is a slot?" 0 [clause; off_topic] 1 ["yes"; "no"] 3 [hit] 4
           "Answer to: What is a slot?" 5);
    [reflexivity | reflexivity | exact H | reflexivity | reflexivity].
Defined.

Lemma all_relevant_skips_search_witness :
  Forall (fun g => g = "yes") ["yes"; "yes"] /\
  exists final,
    request (services [clause; clause] [hit]) "What is a slot?" 0 = (inr final, 4) /\
    ~ In "web_search" (steps final) /\
    documents final = retained [clause; clause] ["yes"; "yes"] /\
    retained [clause; clause] ["yes"; "yes"] = [clause; clause] /\
    generation final = "Answer to: What is a slot?".
Proof.
  assert (H : Forall (fun g => g = "yes") ["yes"; "yes"]).
  { repeat constructor. }
  split; [exact H|].
  apply (all_relevant_skips_search (services [clause; clause] [hit])
           "What is a slot?" 0 [clause; clause] 1 ["yes"; "yes"] 3
           "Answer to: What is a slot?" 4);
    [reflexivity | reflexivity | exact H | reflexivity].
Defined.

Lemma generate_once_and_last_witness :
  request (services [clause; off_topic] [hit]) "What is a slot?" 0
    = (inr (mkState "What is a slot?" "Answer to: What is a slot?" "Yes"
              [clause; result_document hit] search_trace), 5) /\
  count_occ string_dec search_trace "generate_answer" = 1 /\
  exists before,
    search_trace = (before ++ ["generate_answer"])%list /\
    ~ In "generate_answer" before.
Proof.
  split; [reflexivity|].
  apply (generate_once_and_last (services [clause; off_topic] [hit])
           "What is a slot?" 0
           (mkState "What is a slot?" "Answer to: What is a slot?" "Yes"
              [clause; result_document hit] search_trace) 5).
  reflexivity.
Defined.

Lemma retrieve_first_witness :
  request (services [clause] []) "What is a slot?" 0
    = (inr (mkState "What is a slot?" "Answer to: What is a slot?" "No"
              [clause] direct_trace), 3) /\
  direct_trace <> [] /\
  exists rest, direct_trace = "retrieve_documents" :: rest.
Proof.
  split; [reflexivity|].
  apply (retrieve_first (services [clause] []) "What is a slot?" 0
           (mkState "What is a slot?" "Answer to: What is a slot?" "No"
              [clause] direct_trace) 3).
  reflexivity.
Defined.

End GraphScenarios.

(** * Further properties of the loader and of the index routine *)

Section StringTests.

Lemma string_length_app (s t : string) :
  String.length (s ++ t) = String.length s + String.length t.
Proof. induction s as [|c s IH]; simpl; [reflexivity | now rewrite IH]. Qed.

Lemma substring_whole (s : string) : substring 0 (String.length s) s = s.
Proof. induction s as [|c s IH]; simpl; [reflexivity | now rewrite IH]. Qed.

Lemma substring_after (t p : string) (n : nat) :
  substring (String.length t) n (t ++ p) = substring 0 n p.
Proof. induction t as [|c t IH]; simpl; [reflexivity | exact IH]. Qed.

Lemma substring_split (s : string) : forall k,
  k <= String.length s ->
  s = substring 0 k s ++ substring k (String.length s - k) s.
Proof.
  induction s as [|c s IH]; intros [|k] Hk; simpl in *; try reflexivity; try lia.
  - now rewrite substring_whole.
  - f_equal. apply IH. lia.
Qed.

(** [s.startswith(p)] holds exactly when [s] is [p] followed by something. *)
Lemma startswith_iff (s p : string) :
  startswith s p = true <-> exists rest, s = p ++ rest.
Proof.
  unfold startswith. revert s. induction p as [|a p IH]; intros s; simpl.
  - destruct s; split; eauto.
  - destruct s as [|b s]; simpl.
    + split; [discriminate | intros (rest & H); discriminate].
    + destruct (Ascii.ascii_dec a b) as [->|Hab].
      * rewrite IH. split; intros (rest & H); exists rest; congruence.
      * split; [discriminate | intros (rest & H); congruence].
Qed.

(** [s.endswith(p)] holds exactly when [s] is something followed by [p]. *)
Lemma endswith_iff (s p : string) :
  endswith s p = true <-> exists stem, s = stem ++ p.
Proof.
  unfold endswith. rewrite andb_true_iff, Nat.leb_le, String.eqb_eq. split.
  - intros [Hlen Hsub].
    exists (substring 0 (String.length s - String.length p) s).
    pose proof (substring_split s (String.length s - String.length p)) as H.
    replace (String.length s - (String.length s - String.length p))
      with (String.length p) in H by lia.
    rewrite Hsub in H. apply H. lia.
  - intros (stem & ->). rewrite string_length_app. split; [lia|].
    replace (String.length stem + String.length p - String.length p)
      with (String.length stem) by lia.
    rewrite substring_after. apply substring_whole.
Qed.

End StringTests.

Section VectorStoreExtras.

Import VectorStore.

Context {W Index : Type} (P : Platform W Index).

(** X1.  Which loader a source is given to is decided by its spelling alone:
    the web loader exactly when the source is ["http"] followed by anything
    (whatever its ending, [".pdf"] included), the PDF loader exactly when it
    is not of that form and ends with [".pdf"], and the unsupported-source
    error exactly when it has neither form. *)
Theorem select_loader_by_spelling source :
  (select_loader source = inr (WebBaseLoader source)
   <-> exists rest, source = "http" ++ rest) /\
  (select_loader source = inr (PyPDFLoader source)
   <-> (~ exists rest, source = "http" ++ rest) /\
       exists stem, source = stem ++ ".pdf") /\
  (select_loader source = inl (ValueError ("Unsupported source type: " ++ source))
   <-> (~ exists rest, source = "http" ++ rest) /\
       ~ exists stem, source = stem ++ ".pdf").
Proof.
  rewrite <- startswith_iff, <- endswith_iff. unfold select_loader.
  destruct (startswith source "http"); [|destruct (endswith source ".pdf")].
  - repeat split; try discriminate; try reflexivity; intros [H _]; congruence.
  - repeat split; try discriminate; try reflexivity; try congruence.
    intros [_ H]. congruence.
  - repeat split; try discriminate; try reflexivity; try congruence.
    intros [_ H]. congruence.
Qed.

(** The accumulator of the loop only prefixes what the loop loads. *)
Lemma load_documents_loop_acc sources : forall docs p,
  load_documents_loop P sources docs p =
  match load_documents_loop P sources [] p with
  | (inr loaded, p') => (inr (docs ++ loaded)%list, p')
  | (inl e, p') => (inl e, p')
  end.
Proof.
  induction sources as [|source rest IH]; intros docs p; simpl.
  - unfold ret. now rewrite app_nil_r.
  - destruct (select_loader source) as [e|loader]; [reflexivity|].
    unfold bind. destruct (loader_load P loader p) as [[e|loaded] p1];
      [reflexivity|].
    rewrite (IH (docs ++ loaded)%list), (IH ([] ++ loaded)%list).
    destruct (load_documents_loop P rest [] p1) as [[e|more] p2]; [reflexivity|].
    simpl. now rewrite app_assoc.
Qed.

(** X2.  Loading a source list made of two parts is loading the first part,
    then the second in the state the first left, the documents of the first
    part coming first; an error in the first part is raised before the second
    is touched. *)
Theorem load_documents_app first second p :
  load_documents P (first ++ second) p =
  match load_documents P first p with
  | (inr docs1, p1) =>
      match load_documents P second p1 with
      | (inr docs2, p2) => (inr (docs1 ++ docs2)%list, p2)
      | (inl e, p2) => (inl e, p2)
      end
  | (inl e, p1) => (inl e, p1)
  end.
Proof.
  unfold load_documents. rewrite load_documents_loop_app.
  destruct (load_documents_loop P first [] p) as [[e|docs1] p1]; [reflexivity|].
  apply load_documents_loop_acc.
Qed.

Lemma load_documents_loop_calls sources : forall docs p docs' p',
  load_documents_loop P sources docs p = (inr docs', p') ->
  calls p' = (calls p ++ map loader_call sources)%list /\ stdout p' = stdout p.
Proof.
  induction sources as [|source rest IH]; intros docs p docs' p' H; simpl in *.
  - inversion H; subst. now rewrite app_nil_r.
  - unfold select_loader, loader_call in *.
    destruct (startswith source "http").
    + unfold bind, loader_load, invoke in H.
      destruct (web_loader_load P source (world p)) as [[e|loaded] w1];
        [discriminate|].
      apply IH in H as [Hc Hs]. simpl in Hc, Hs.
      rewrite Hc, Hs, <- app_assoc. split; reflexivity.
    + destruct (endswith source ".pdf"); [|discriminate].
      unfold bind, loader_load, invoke in H.
      destruct (pdf_loader_load P source (world p)) as [[e|loaded] w1];
        [discriminate|].
      apply IH in H as [Hc Hs]. simpl in Hc, Hs.
      rewrite Hc, Hs, <- app_assoc. split; reflexivity.
Qed.

(** X3.  When [load_documents] returns, it has run exactly one loader per
    source, in the order of the list, the web loader for the sources that
    start with ["http"] and the PDF loader for the others, and it has printed
    nothing. *)
Theorem load_documents_one_loader_per_source sources p docs p' :
  load_documents P sources p = (inr docs, p') ->
  calls p' = (calls p ++ map loader_call sources)%list /\
  stdout p' = stdout p /\
  List.length (calls p') = List.length (calls p) + List.length sources.
Proof.
  intros H. apply load_documents_loop_calls in H as [Hc Hs].
  repeat split; try assumption.
  rewrite Hc, length_app, length_map. reflexivity.
Qed.

Lemma save_index_builds vs index_dir index_path p :
  index_builds (calls (snd (save_index P vs index_dir index_path p)))
  = index_builds (calls p).
Proof.
  rewrite save_index_outcome.
  destruct (os_makedirs P index_dir (world p)) as [[e|u] w1]; simpl.
  - rewrite index_builds_app. unfold index_builds at 2. simpl. lia.
  - destruct (save_local P vs index_path w1) as [[e|u'] w2]; simpl;
      rewrite index_builds_app; unfold index_builds at 2; simpl; lia.
Qed.

Lemma create_new_builds sources index_dir index_path p :
  index_builds (calls (snd (create_new P sources index_dir index_path p)))
  <= index_builds (calls p) + 1.
Proof.
  pose proof (load_documents_loop_builds P sources []
                (printed "Creating new vector store..." p)) as Hload.
  fold (load_documents P sources) in Hload.
  destruct (load_documents P sources (printed "Creating new vector store..." p))
    as [[e|docs] p1] eqn:Hl; simpl in Hload.
  - rewrite (create_new_load_raises P _ index_dir index_path _ _ _ Hl). simpl. lia.
  - destruct (split_documents P docs (world p1)) as [[e|splits] w2] eqn:Hs.
    + rewrite (create_new_split_raises P _ index_dir index_path _ _ _ _ _ Hl Hs).
      simpl. rewrite index_builds_app. unfold index_builds at 2. simpl. lia.
    + destruct (FAISS_from_documents P splits w2) as [[e|vs] w3] eqn:Hb.
      * rewrite (create_new_build_raises P _ index_dir index_path
                   _ _ _ _ _ _ _ Hl Hs Hb).
        simpl. rewrite index_builds_app. unfold index_builds at 2. simpl. lia.
      * rewrite (create_new_built P _ index_dir index_path _ _ _ _ _ _ _ Hl Hs Hb).
        cbn [snd]. rewrite save_index_builds. simpl.
        rewrite index_builds_app. unfold index_builds at 2. simpl. lia.
Qed.

(** X4.  One call of [create_or_load_vectorstore] builds an index from
    documents at most once, whatever the disk holds and however the call
    ends. *)
Theorem create_or_load_vectorstore_builds_at_most_once sources index_name p :
  index_builds
    (calls (snd (create_or_load_vectorstore P sources index_name p)))
  <= index_builds (calls p) + 1.
Proof.
  unfold create_or_load_vectorstore, bind, observe, print.
  set (index_dir := os_path_join (os_getcwd P (world p)) index_name).
  set (index_path := os_path_join index_dir "index").
  set (p0 := printed _ p).
  pose proof (load_existing_builds P index_path p0) as Hb.
  destruct (load_existing_returns P index_path p0) as (r & p1 & Hr).
  rewrite Hr in Hb |- *. simpl in Hb.
  destruct r as [vs|].
  - simpl. lia.
  - pose proof (create_new_builds sources index_dir index_path p1). lia.
Qed.

End VectorStoreExtras.

(** * Further properties of the graph *)

Section GraphExtras.

Import Graph.

Context {W : Type} (svc : Services W).



(** What [retrieve] does to the trace does not depend on the test it makes. *)
Lemma retrieve_steps (l : list string) :
  ((if truthy l then l else []) ++ ["retrieve_documents"])%list
  = (l ++ ["retrieve_documents"])%list.
Proof. destruct l; reflexivity. Qed.

(** What the compiled graph does on any input, in terms of the four
    services. *)
Lemma app_invoke_outcome input w :
  app_invoke svc input w =
  match retriever_invoke svc (question input) w with
  | (inl e, w1) => (inl e, w1)
  | (inr docs, w1) =>
      match judgments svc (question input) docs w1 with
      | (inl e, w2) => (inl e, w2)
      | (inr grades, w2) =>
          if all_yes grades then
            match rag_chain_invoke svc (retained docs grades) (question input) w2 with
            | (inl e, w3) => (inl e, w3)
            | (inr answer, w3) =>
                (inr (mkState (question input) answer "No" (retained docs grades)
                        (steps input ++ direct_trace)), w3)
            end
          else
            match web_search_tool_invoke svc (question input) w2 with
            | (inl e, w3) => (inl e, w3)
            | (inr hits, w3) =>
                let final_docs :=
                  (retained docs grades ++ map result_document hits)%list in
                match rag_chain_invoke svc final_docs (question input) w3 with
                | (inl e, w4) => (inl e, w4)
                | (inr answer, w4) =>
                    (inr (mkState (question input) answer "Yes" final_docs
                            (steps input ++ search_trace)), w4)
                end
            end
      end
  end.
Proof.
  rewrite app_invoke_pipeline.
  unfold pipeline, retrieve, bind.
  cbn -[grade_documents web_search generate truthy].
  destruct (retriever_invoke svc (question input) w) as [[e|docs] w1];
    [reflexivity|].
  cbn -[grade_documents web_search generate truthy]. rewrite retrieve_steps.
  destruct (judgments svc (question input) docs w1) as [[e|grades] w2] eqn:Hj.
  - erewrite grade_documents_raises by (cbn; exact Hj). reflexivity.
  - erewrite grade_documents_judged by (cbn; exact Hj).
    cbn -[web_search generate].
    destruct (all_yes grades); cbn -[web_search generate].
    + unfold generate, bind. cbn.
      destruct (rag_chain_invoke svc (retained docs grades) (question input) w2)
        as [[e|answer] w3]; [reflexivity|].
      unfold direct_trace. rewrite <- !app_assoc. reflexivity.
    + unfold web_search, bind. cbn -[generate].
      destruct (web_search_tool_invoke svc (question input) w2) as [[e|hits] w3];
        [reflexivity|].
      cbn -[generate]. unfold generate, bind. cbn.
      destruct (rag_chain_invoke svc _ (question input) w3) as [[e|answer] w4];
        [reflexivity|].
      unfold search_trace. rewrite <- !app_assoc. reflexivity.
Qed.

(** X6.  Whatever state the compiled graph is started with, a run that
    returns has kept the question and has extended the trace it was given,
    never rewritten it: by the three steps of a direct run when it leaves the
    flag at ["No"], by the four steps of a run with web search when it leaves
    it at ["Yes"]. *)
Theorem app_invoke_extends_trace input w final w' :
  app_invoke svc input w = (inr final, w') ->
  question final = question input /\
  ((search final = "No" /\ steps final = (steps input ++ direct_trace)%list) \/
   (search final = "Yes" /\ steps final = (steps input ++ search_trace)%list)).
Proof.
  rewrite app_invoke_outcome. intros H.
  destruct (retriever_invoke svc (question input) w) as [[e|docs] w1];
    [discriminate|].
  destruct (judgments svc (question input) docs w1) as [[e|grades] w2];
    [discriminate|].
  destruct (all_yes grades).
  - destruct (rag_chain_invoke svc (retained docs grades) (question input) w2)
      as [[e|answer] w3]; [discriminate|].
    inversion H; subst. split; [reflexivity | left; split; reflexivity].
  - destruct (web_search_tool_invoke svc (question input) w2) as [[e|hits] w3];
      [discriminate|].
    cbv zeta in H.
    destruct (rag_chain_invoke svc _ (question input) w3) as [[e|answer] w4];
      [discriminate|].
    inversion H; subst. split; [reflexivity | right; split; reflexivity].
Qed.

(** X7.  The compiled graph reads only the question and the trace of its
    input: the documents, the search flag and the generation found there are
    overwritten before they are read.  A stale flag ["Yes"] in the input
    therefore never sends a run to the web search. *)
Theorem app_invoke_reads_question_and_steps input w stale_generation stale_search
  stale_documents :
  app_invoke svc
    (mkState (question input) stale_generation stale_search stale_documents
       (steps input)) w
  = app_invoke svc input w.
Proof.
  rewrite !app_invoke_outcome. reflexivity.
Qed.


Lemma subsequence_nil_l {A : Type} (l : list A) : subsequence [] l.
Proof. induction l; constructor; assumption. Qed.

Lemma retained_subsequence docs : forall grades,
  subsequence (retained docs grades) docs.
Proof.
  induction docs as [|d ds IH]; intros [|g gs]; simpl;
    try apply subsequence_nil_l.
  destruct (g =? "yes"); constructor; apply IH.
Qed.

Lemma retained_length docs : forall grades,
  List.length (retained docs grades) <= List.length docs.
Proof.
  induction docs as [|d ds IH]; intros [|g gs]; simpl; try lia.
  specialize (IH gs). destruct (g =? "yes"); simpl; lia.
Qed.

Lemma retained_shorter docs : forall grades,
  List.length grades = List.length docs ->
  all_yes grades = false ->
  List.length (retained docs grades) < List.length docs.
Proof.
  induction docs as [|d ds IH]; intros [|g gs] Hlen Hall;
    simpl in *; try discriminate.
  destruct (g =? "yes"); simpl in *.
  - assert (List.length (retained ds gs) < List.length ds)
      by (apply IH; [lia | exact Hall]).
    lia.
  - pose proof (retained_length ds gs). lia.
Qed.

(** X9.  When [grade_documents] returns, the documents it hands on are the
    documents it was given with some left out, in the same order; it hands
    on all of them exactly when it sets the flag to ["No"], and strictly
    fewer when it sets it to ["Yes"].  It writes the question back unchanged
    and adds its own step to the trace. *)
Theorem grade_documents_only_drops state w u w' :
  grade_documents svc state w = (inr u, w') ->
  exists kept flag,
    u = mkUpdate (Some kept) (Some (question state)) None (Some flag)
          (Some (steps state ++ ["grade_document_retrieval"])%list) /\
    subsequence kept (documents state) /\
    ((flag = "No" /\ kept = documents state) \/
     (flag = "Yes" /\ List.length kept < List.length (documents state))).
Proof.
  intros H.
  destruct (judgments svc (question state) (documents state) w)
    as [[e|grades] w1] eqn:Hj.
  - rewrite (grade_documents_raises svc _ _ _ _ Hj) in H. discriminate.
  - rewrite (grade_documents_judged svc _ _ _ _ Hj) in H. inversion H; subst.
    pose proof (judgments_length svc _ _ _ _ _ Hj) as Hlen.
    eexists. eexists. split; [reflexivity|].
    split; [apply retained_subsequence|].
    destruct (all_yes grades) eqn:Hall.
    + left. split; [reflexivity | now apply retained_all_yes].
    + right. split; [reflexivity | now apply retained_shorter].
Qed.

Lemma judgments_app q before : forall after w,
  judgments svc q (before ++ after) w =
  match judgments svc q before w with
  | (inr grades1, w1) =>
      match judgments svc q after w1 with
      | (inr grades2, w2) => (inr (grades1 ++ grades2)%list, w2)
      | (inl e, w2) => (inl e, w2)
      end
  | (inl e, w1) => (inl e, w1)
  end.
Proof.
  induction before as [|d ds IH]; intros after w; simpl.
  - unfold ret. destruct (judgments svc q after w) as [[e|gs] w2]; reflexivity.
  - unfold bind.
    destruct (retrieval_grader_invoke svc q (page_content d) w) as [[e|score] w1];
      [reflexivity|].
    rewrite IH. destruct (judgments svc q ds w1) as [[e|gs1] w2]; [reflexivity|].
    unfold ret. cbn.
    destruct (judgments svc q after w2) as [[e|gs2] w3]; reflexivity.
Qed.

(** X10.  When the grading model raises on a chunk, [grade_documents]
    raises the same error in the world that call left: the chunks after it
    are not graded, whatever they are, and the verdicts already obtained are
    not returned. *)
Theorem grade_documents_stops_at_failure state w before d after grades w1 e w2 :
  documents state = (before ++ d :: after)%list ->
  judgments svc (question state) before w = (inr grades, w1) ->
  retrieval_grader_invoke svc (question state) (page_content d) w1 = (inl e, w2) ->
  grade_documents svc state w = (inl e, w2).
Proof.
  intros Hdocs Hbefore Hfail. apply grade_documents_raises.
  rewrite Hdocs, judgments_app, Hbefore. simpl. unfold bind.
  rewrite Hfail. reflexivity.
Qed.

(** X11.  In the state a request returns, the search flag and the trace
    agree: the flag is ["Yes"] exactly when the web-search step is in the
    trace, and ["No"] exactly when it is not. *)
Theorem request_flag_matches_trace prompt w final w' :
  request svc prompt w = (inr final, w') ->
  (search final = "Yes" <-> In "web_search" (steps final)) /\
  (search final = "No" <-> ~ In "web_search" (steps final)).
Proof.
  intros H. apply request_inv in H.
  destruct H as (docs & w1 & grades & w2 & _ & _ &
                 [(_ & answer & _ & ->) | (_ & hits & w3 & answer & _ & _ & ->)]);
    cbn [search steps]; unfold direct_trace, search_trace; simpl.
  - split; split; intros H; try discriminate; try reflexivity;
      intuition discriminate.
  - split; split; intros H; try discriminate; try reflexivity; auto 10.
    exfalso. apply H. auto 10.
Qed.

End GraphExtras.

(** * Properties of the chat page *)

Section ChatProperties.

Import Graph Chat.

Context {W : Type} (svc : Services W) (F : Frontend W).

Lemma show_message_page message (s : Script W) :
  show_message message s =
  (inr tt, mkScript (world s) (session_state s) (page s ++ message_calls message)).
Proof.
  unfold show_message, message_calls, bind, st.
  destruct (message_steps message) as [lines|]; cbn.
  - destruct (role message =? "assistant"); cbn; rewrite <- ?app_assoc; reflexivity.
  - rewrite <- app_assoc. reflexivity.
Qed.

Lemma show_messages_page messages : forall s : Script W,
  show_messages messages s =
  (inr tt, mkScript (world s) (session_state s)
             (page s ++ flat_map message_calls messages)).
Proof.
  induction messages as [|message rest IH]; intros s; simpl.
  - unfold ret. rewrite app_nil_r. destruct s; reflexivity.
  - unfold bind. rewrite show_message_page, IH. cbn.
    rewrite <- app_assoc. reflexivity.
Qed.

(** The script up to the [try], in terms of what the world answers. *)
Lemma run_streamlit_outcome (s : Script W) :
  run_streamlit svc F s =
  match st_chat_input F "Any question about VSA?" (world s) with
  | (inl e, w1) => (inl e, mkScript w1 (mkSession (Some (history s))) (shown s))
  | (inr typed, w1) =>
      match typed with
      | Some text =>
          if prompt_given typed then
            match datetime_now F w1 with
            | (inl e, w2) =>
                (inl e, mkScript w2 (mkSession (Some (history s))) (shown s))
            | (inr user_timestamp, w2) =>
                let asked :=
                  mkScript w2
                    (mkSession
                       (Some (history s ++
                              [mkMessage "user" text user_timestamp None])%list))
                    (shown s ++
                     [StChatMessage "user"; StMarkdown (bubble text user_timestamp);
                      StSpinner "Thinking..."]) in
                bind
                  (try_except (answer svc F text)
                     (fun e => st (StError ("An error occurred: " ++ str e))))
                  (fun _ => st StRerun) asked
            end
          else (inr tt, mkScript w1 (mkSession (Some (history s))) (shown s))
      | None => (inr tt, mkScript w1 (mkSession (Some (history s))) (shown s))
      end
  end.
Proof.
  unfold run_streamlit, shown, history.
  unfold bind at 1. unfold init_messages.
  destruct s as [w [[messages|]] drawn]; cbn [schedule_messages session_state world page].
  - unfold bind at 1. unfold get_messages. cbn [schedule_messages session_state].
    unfold bind at 1. rewrite show_messages_page. cbn [world session_state page].
    unfold bind at 1. unfold bind at 1. unfold st at 1. cbn [world session_state page].
    unfold ask at 1. cbn [world session_state page].
    rewrite <- app_assoc.
    destruct (st_chat_input F "Any question about VSA?" w) as [[e|typed] w1];
      [reflexivity|].
    destruct typed as [text|]; [|reflexivity].
    destruct (prompt_given (Some text)); [|reflexivity].
    unfold bind at 1. unfold ask at 1. cbn [world session_state page].
    destruct (datetime_now F w1) as [[e|user_timestamp] w2]; [reflexivity|].
    unfold bind at 1. unfold append_message at 1.
    cbn [world session_state page schedule_messages].
    unfold bind at 1. unfold st at 1. cbn [world session_state page].
    unfold bind at 1. unfold st at 1. cbn [world session_state page].
    unfold bind at 1. unfold st at 1. cbn [world session_state page].
    rewrite <- !app_assoc. reflexivity.
  - unfold bind at 1. unfold get_messages. cbn [schedule_messages session_state].
    unfold bind at 1. rewrite show_messages_page. cbn [world session_state page].
    unfold bind at 1. unfold bind at 1. unfold st at 1. cbn [world session_state page].
    unfold ask at 1. cbn [world session_state page flat_map app].
    rewrite app_nil_r.
    destruct (st_chat_input F "Any question about VSA?" w) as [[e|typed] w1];
      [reflexivity|].
    destruct typed as [text|]; [|reflexivity].
    destruct (prompt_given (Some text)); [|reflexivity].
    unfold bind at 1. unfold ask at 1. cbn [world session_state page].
    destruct (datetime_now F w1) as [[e|user_timestamp] w2]; [reflexivity|].
    unfold bind at 1. unfold append_message at 1.
    cbn [world session_state page schedule_messages].
    unfold bind at 1. unfold st at 1. cbn [world session_state page].
    unfold bind at 1. unfold st at 1. cbn [world session_state page].
    unfold bind at 1. unfold st at 1. cbn [world session_state page].
    rewrite <- !app_assoc. reflexivity.
Qed.

(** The body of the [try], in terms of what the world answers. *)
Lemma answer_outcome text (s : Script W) messages :
  schedule_messages (session_state s) = Some messages ->
  answer svc F text s =
  match uuid4 F (world s) with
  | (inl e, w1) => (inl e, mkScript w1 (session_state s) (page s))
  | (inr _, w1) =>
      match request svc text w1 with
      | (inl e, w2) => (inl e, mkScript w2 (session_state s) (page s))
      | (inr final, w2) =>
          match datetime_now F w2 with
          | (inl e, w3) => (inl e, mkScript w3 (session_state s) (page s))
          | (inr ai_timestamp, w3) =>
              (inr tt,
               mkScript w3
                 (mkSession
                    (Some (messages ++
                           [mkMessage "assistant" (generation final) ai_timestamp
                              (Some (steps final))])%list))
                 (page s ++
                  [StChatMessage "assistant";
                   StMarkdown (bubble (generation final) ai_timestamp);
                   StExpander "View steps"; StWrite (steps final)]))
          end
      end
  end.
Proof.
  intros Hmessages. unfold answer.
  unfold bind at 1. unfold ask at 1.
  destruct (uuid4 F (world s)) as [[e|thread_id] w1]; [reflexivity|].
  unfold bind at 1. unfold ask at 1. cbn [world session_state page].
  destruct (request svc text w1) as [[e|final] w2]; [reflexivity|].
  unfold bind at 1. unfold ask at 1. cbn [world session_state page].
  destruct (datetime_now F w2) as [[e|ai_timestamp] w3]; [reflexivity|].
  unfold bind, append_message, st. cbn [world session_state page schedule_messages].
  rewrite Hmessages. cbn [world session_state page].
  rewrite <- !app_assoc. reflexivity.
Qed.

(** The [try] with its handler returns in every case; it stores at most the
    assistant's message and only adds to the page. *)
Lemma attempt_returns text (s : Script W) messages :
  schedule_messages (session_state s) = Some messages ->
  exists s' added drawn,
    try_except (answer svc F text)
      (fun e => st (StError ("An error occurred: " ++ str e))) s = (inr tt, s') /\
    schedule_messages (session_state s') = Some (messages ++ added)%list /\
    List.length added <= 1 /\
    (forall m, In m added -> role m = "assistant") /\
    page s' = (page s ++ drawn)%list.
Proof.
  intros Hmessages. unfold try_except.
  rewrite (answer_outcome text s messages Hmessages).
  destruct (uuid4 F (world s)) as [[e|thread_id] w1].
  { eexists. exists [], [StError ("An error occurred: " ++ str e)].
    unfold st. cbn. rewrite app_nil_r. repeat split; auto. intros m []. }
  destruct (request svc text w1) as [[e|final] w2].
  { eexists. exists [], [StError ("An error occurred: " ++ str e)].
    unfold st. cbn. rewrite app_nil_r. repeat split; auto. intros m []. }
  destruct (datetime_now F w2) as [[e|ai_timestamp] w3].
  { eexists. exists [], [StError ("An error occurred: " ++ str e)].
    unfold st. cbn. rewrite app_nil_r. repeat split; auto. intros m []. }
  eexists. eexists. eexists. split; [reflexivity|]. cbn.
  split; [reflexivity|]. split; [simpl; lia|]. split; [|reflexivity].
  intros m [<-|[]]. reflexivity.
Qed.

(** X12.  When nothing has been typed ([st.chat_input] gives [None] or the
    empty string), the script displays the stored messages and the input and
    stops there: nothing is stored, the clock is not read, the graph is not
    run, and no rerun is asked for. *)
Theorem run_streamlit_without_prompt (s : Script W) typed w1 :
  st_chat_input F "Any question about VSA?" (world s) = (inr typed, w1) ->
  prompt_given typed = false ->
  run_streamlit svc F s =
  (inr tt, mkScript w1 (mkSession (Some (history s))) (shown s)).
Proof.
  intros Hinput Hgiven. rewrite run_streamlit_outcome, Hinput.
  destruct typed as [text|]; [|reflexivity]. rewrite Hgiven. reflexivity.
Qed.




(** X16.  The stored messages only grow: however a run of the script ends,
    the messages it leaves are those it found followed by at most two new
    ones, a user's then an assistant's, and the page it leaves extends the
    page it found. *)
Theorem run_streamlit_appends (s : Script W) :
  exists added drawn,
    history (snd (run_streamlit svc F s)) = (history s ++ added)%list /\
    List.length added <= 2 /\
    (forall m, In m added -> role m = "user" \/ role m = "assistant") /\
    page (snd (run_streamlit svc F s)) = (page s ++ drawn)%list.
Proof.
  rewrite run_streamlit_outcome. unfold shown.
  destruct (st_chat_input F "Any question about VSA?" (world s)) as [[e|typed] w1].
  { exists []. eexists. cbn. rewrite app_nil_r.
    repeat split; auto. intros m []. }
  destruct typed as [text|];
    [|exists []; eexists; cbn; rewrite app_nil_r; repeat split; auto;
      intros m []].
  destruct (prompt_given (Some text));
    [|exists []; eexists; cbn; rewrite app_nil_r; repeat split; auto;
      intros m []].
  destruct (datetime_now F w1) as [[e|asked_at] w2].
  { exists []. eexists. cbn. rewrite app_nil_r.
    repeat split; auto. intros m []. }
  cbv zeta. unfold bind.
  match goal with
  | |- context [try_except _ _ ?asked] =>
      destruct (attempt_returns text asked
                  (history s ++ [mkMessage "user" text asked_at None])%list eq_refl)
        as (s' & added & drawn & -> & Hstored & Hlen & Hroles & Hpage)
  end.
  unfold st. cbn [snd session_state page]. unfold history at 1.
  cbn [session_state]. rewrite Hstored, Hpage.
  exists (mkMessage "user" text asked_at None :: added). eexists.
  cbn [page]. split; [now rewrite <- app_assoc|].
  split; [simpl; lia|]. split.
  - intros m [<-|Hm]; [left; reflexivity | right; now apply Hroles].
  - rewrite <- !app_assoc. reflexivity.
Qed.

Lemma filter_message_calls message :
  filter is_chat_message (message_calls message) = [StChatMessage (role message)].
Proof.
  unfold message_calls. destruct (message_steps message) as [lines|];
    [destruct (role message =? "assistant")|]; reflexivity.
Qed.

Lemma write_in_message_calls message lines :
  In (StWrite lines) (message_calls message) <->
  role message = "assistant" /\ message_steps message = Some lines.
Proof.
  unfold message_calls. destruct (message_steps message) as [stored|].
  - destruct (String.eqb_spec (role message) "assistant") as [Hrole|Hrole]; simpl.
    + split.
      * intros [H|[H|[H|[H|[]]]]]; try discriminate. inversion H. auto.
      * intros [_ H]. inversion H. auto.
    + split.
      * intros [H|[H|[]]]; discriminate.
      * intros [H _]. contradiction.
  - simpl. split.
    + intros [H|[H|[]]]; discriminate.
    + intros [_ H]. discriminate.
Qed.

(** X17.  Displaying the stored messages draws one chat bubble per message,
    in the order of the store, and writes a list of steps exactly for the
    assistant's messages that carry one; it changes neither the world nor the
    store. *)
Theorem show_messages_draws_each_message messages (s : Script W) :
  exists drawn,
    show_messages messages s
    = (inr tt, mkScript (world s) (session_state s) (page s ++ drawn)) /\
    filter is_chat_message drawn = map (fun m => StChatMessage (role m)) messages /\
    (forall lines,
       In (StWrite lines) drawn <->
       exists m, In m messages /\ role m = "assistant" /\
                 message_steps m = Some lines).
Proof.
  exists (flat_map message_calls messages).
  split; [apply show_messages_page|]. split.
  - induction messages as [|m rest IH]; cbn [flat_map map]; [reflexivity|].
    rewrite filter_app, filter_message_calls, IH. reflexivity.
  - intros lines. rewrite in_flat_map. split.
    + intros (m & Hm & Hin). exists m. split; [exact Hm|].
      now apply write_in_message_calls.
    + intros (m & Hm & Hrole & Hsteps). exists m. split; [exact Hm|].
      apply write_in_message_calls. auto.
Qed.

End ChatProperties.

(** ** The further properties on concrete worlds *)

Section ExtraScenarios.

Import Graph Chat Scenario.

Lemma load_documents_one_loader_per_source_witness :
  VectorStore.calls
    (snd (VectorStore.load_documents platform
            ["./index_vsa/vsa.pdf"; "https://example.org/terms.pdf"]
            (fresh empty_disk)))
  = [VectorStore.CallPdfLoad "./index_vsa/vsa.pdf";
     VectorStore.CallWebLoad "https://example.org/terms.pdf"].
Proof.
  apply (proj1 (load_documents_one_loader_per_source platform
                  ["./index_vsa/vsa.pdf"; "https://example.org/terms.pdf"]
                  (fresh empty_disk)
                  [mkDocument "pdf text" [("source", "./index_vsa/vsa.pdf")];
                   mkDocument "page text"
                     [("source", "https://example.org/terms.pdf")]]
                  _ eq_refl)).
Defined.


Lemma app_invoke_extends_trace_witness :
  app_invoke (services [clause] [hit]) stale_state 0
  = (inr (mkState "What is a slot?" "Answer to: What is a slot?" "No" [clause]
            ("earlier_step" :: direct_trace)), 3) /\
  question (mkState "What is a slot?" "Answer to: What is a slot?" "No" [clause]
              ("earlier_step" :: direct_trace)) = question stale_state.
Proof.
  split; [reflexivity|].
  apply (app_invoke_extends_trace (services [clause] [hit]) stale_state 0
           (mkState "What is a slot?" "Answer to: What is a slot?" "No" [clause]
              ("earlier_step" :: direct_trace)) 3 eq_refl).
Defined.


Lemma grade_documents_only_drops_witness :
  exists kept flag,
    mkUpdate (Some [clause]) (Some "What is a slot?") None (Some "Yes")
      (Some ["retrieve_documents"; "grade_document_retrieval"])
    = mkUpdate (Some kept) (Some (question (retrieved_state [clause; off_topic])))
        None (Some flag)
        (Some (steps (retrieved_state [clause; off_topic])
               ++ ["grade_document_retrieval"])%list) /\
    subsequence kept (documents (retrieved_state [clause; off_topic])) /\
    ((flag = "No" /\ kept = documents (retrieved_state [clause; off_topic])) \/
     (flag = "Yes" /\
      List.length kept
      < List.length (documents (retrieved_state [clause; off_topic])))).
Proof.
  apply (grade_documents_only_drops (services [] [])
           (retrieved_state [clause; off_topic]) 1
           (mkUpdate (Some [clause]) (Some "What is a slot?") None (Some "Yes")
              (Some ["retrieve_documents"; "grade_document_retrieval"]))
           3 eq_refl).
Defined.

Lemma grade_documents_stops_at_failure_witness :
  grade_documents (services_strict [])
    (retrieved_state [clause; annex; off_topic]) 1
  = (inl (LibraryError "ValidationError" "binary_score missing"), 3).
Proof.
  apply (grade_documents_stops_at_failure (services_strict [])
           (retrieved_state [clause; annex; off_topic]) 1
           [clause] annex [off_topic] ["yes"] 2
           (LibraryError "ValidationError" "binary_score missing") 3
           eq_refl eq_refl eq_refl).
Defined.

Lemma request_flag_matches_trace_witness :
  (search (mkState "What is a slot?" "Answer to: What is a slot?" "Yes"
             [clause; result_document hit] search_trace) = "Yes"
   <-> In "web_search" search_trace) /\
  (search (mkState "What is a slot?" "Answer to: What is a slot?" "Yes"
             [clause; result_document hit] search_trace) = "No"
   <-> ~ In "web_search" search_trace).
Proof.
  apply (request_flag_matches_trace (services [clause; off_topic] [hit])
           "What is a slot?" 0
           (mkState "What is a slot?" "Answer to: What is a slot?" "Yes"
              [clause; result_document hit] search_trace) 5 eq_refl).
Defined.

Lemma run_streamlit_without_prompt_witness :
  run_streamlit (services [clause] []) (frontend (Some "")) later_run
  = (inr tt,
     mkScript 1 (mkSession (Some earlier_exchange))
       [StChatMessage "user";
        StMarkdown (bubble "What is a VSA?" "2023-12-31 23:59:58");
        StChatMessage "assistant";
        StMarkdown (bubble "A vessel sharing agreement." "2023-12-31 23:59:59");
        StExpander "View steps"; StWrite direct_trace;
        StChatInput "Any question about VSA?"]).
Proof.
  apply (run_streamlit_without_prompt (services [clause] []) (frontend (Some ""))
           later_run (Some "") 1 eq_refl eq_refl).
Defined.




End ExtraScenarios.
